(** * pychicken: the motion / facts / livestream coordinator

    A shallow embedding of [src/pychicken/pychicken.py] (class [pyChicken])
    and the properties of its rate limiter, camera handling, facts refresh
    and livestream routine.

    The object's attributes are a record ([Self]); everything outside the
    object (clock, camera driver, Twitter, the facts server, ffmpeg) is a
    collaborator whose answers come from an oracle ([Env]) and whose calls
    are recorded, in order, in a trace ([World]).  Methods are computations
    in a state-and-exception monad.  A method runs from start to end on its
    own: the threads of [run] are not interleaved here. *)

From Stdlib Require Import ZArith QArith Lia.
From stdpp Require Import base option list strings gmap pretty.

Local Open Scope Z_scope.

(** ** Python values and exceptions *)

(** The exceptions the code can meet.  [KeyboardInterrupt] is the only one
    that is not a subclass of [Exception]. *)
Inductive Exn :=
  | KeyboardInterrupt
  | AttributeError
  | UnboundLocalError
  | TypeError
  | ValueError
  | IndexError
  | KeyError
  | OSError
  | HardwareError      (* picamera: PiCameraError and its subclasses *)
  | PublishError       (* tweepy: TweepError *)
  | FetchError         (* requests: RequestException *)
  | ParseError.        (* yaml: YAMLError *)

Global Instance Exn_eq_dec : EqDecision Exn.
Proof. solve_decision. Defined.

(** [except Exception] catches everything but [KeyboardInterrupt]. *)
Definition is_Exception (e : Exn) : bool :=
  match e with KeyboardInterrupt => false | _ => true end.

(** What an attribute holding a number of seconds can be: [configparser]
    hands out every value as a [str]; a caller may store a number. *)
Inductive PyVal :=
  | PyInt (n : Z)
  | PyStr (s : string).

Global Instance PyVal_eq_dec : EqDecision PyVal.
Proof. solve_decision. Defined.

(** One entry of the facts file: a mapping from keys to strings
    ([yaml.BaseLoader] leaves every scalar a string). *)
Abbreviation Fact := (gmap string string).

(** ** Time *)

(** A [datetime] is a number of microseconds since the epoch, a [timedelta]
    a number of microseconds. *)
Abbreviation datetime := Z (only parsing).
Abbreviation timedelta := Z (only parsing).

(** [timedelta.total_seconds()], as the exact quotient.  Python returns the
    nearest float, which compares with a whole number of seconds as the
    quotient does while both stay below 2^33 s (some 270 years). *)
Definition total_seconds (d : timedelta) : Q := d # 1000000.

(** [x > v] for a float [x]: a [TypeError] when [v] is a [str]. *)
Definition float_gt (x : Q) (v : PyVal) : Exn + bool :=
  match v with
  | PyInt n => inr (negb (Qle_bool x (inject_Z n)))
  | PyStr _ => inl TypeError
  end.

(** ** Collaborator calls *)

Inductive Level := DEBUG | INFO | ERROR.

Inductive Event :=
  | Log (lvl : Level) (fmt : string)
  | Sleep (secs : Z)
  (* picamera *)
  | NewPiCamera
  | SetResolution (w h : Z)
  | SetFramerate (r : Z)
  | SetAnnotateText (text : string)
  | Capture (path : string) (use_video_port : bool)
  | CameraClose
  | StartRecording (format : string) (bitrate : Z)
  | WaitRecording (timeout : PyVal)
  | StopRecording
  (* subprocess *)
  | Popen (cmd : string)
  | StdinClose
  (* requests *)
  | HttpGet (url : string)
  (* tweepy *)
  | VerifyCredentials
  | MediaUpload (path : string)
  | UpdateStatus (status : string) (media_ids : option (list Z)).

Global Instance Level_eq_dec : EqDecision Level.
Proof. solve_decision. Defined.
Global Instance Event_eq_dec : EqDecision Event.
Proof. solve_decision. Defined.

(** What the outside world answers.  Collaborator calls are numbered in the
    order they are made. *)
Record Env := {
  now_seq : nat -> datetime;          (* k-th reading of [datetime.now()] *)
  fate : nat -> option Exn;           (* k-th collaborator call: [Some e] = it raises [e] *)
  rand : nat -> nat;                  (* randomness behind the k-th [randrange] *)
  web : nat -> string;                (* body a successful GET returns, by call number *)
  yaml : string -> Exn + list Fact;   (* [yaml.load(..., Loader=yaml.BaseLoader)] *)
  new_id : nat -> Z;                  (* identifier Twitter returns, by call number *)
}.

(** The part of the world that changes. *)
Record World := {
  reads : nat;              (* clock readings made so far *)
  calls : nat;              (* collaborator calls made so far *)
  draws : nat;              (* random draws made so far *)
  trace : list Event;       (* everything done to the outside, oldest first *)
}.

(** ** The object *)

(** [self.camera]: unset until [_initialize_camera] runs, then a handle that
    is open or closed. *)
Inductive Camera := CamUnset | CamOpen | CamClosed.

Global Instance Camera_eq_dec : EqDecision Camera.
Proof. solve_decision. Defined.

(** A local variable of a running method. *)
Inductive Local (A : Type) := Unbound | Bound (a : A).
Arguments Unbound {A}.
Arguments Bound {A} a.

(** The stdin of the ffmpeg process. *)
Inductive Pipe := PipeOpen | PipeClosed.

Record Self := {
  running_livestream : bool;
  youtube_key : string;
  youtube_url : string;
  youtube_feed_url : string;
  livestream_duration : PyVal;
  facts_url : string;
  facts : list Fact;
  facts_count : nat;
  motion_sensor_pin : string;
  camera_text : option string;       (* [None] is the code's [False] *)
  tweet_interval : PyVal;
  twitter_image : string;
  camera : Camera;
  timestamp : datetime;
}.

Record State := {
  self : Self;
  world : World;
  stream_pipe : Local Pipe;   (* the local [stream_pipe] of [_send_livestream] *)
}.

(** ** The monad *)

(** A computation returns, raises, or is still inside a [while True] loop
    when the fuel given to it runs out ([Spin]). *)
Inductive Res (A : Type) :=
  | Ret (a : A)
  | Raise (e : Exn)
  | Spin.
Arguments Ret {A} a.
Arguments Raise {A} e.
Arguments Spin {A}.

Definition M (S A : Type) : Type := S -> Res A * S.

Definition ret {S A} (a : A) : M S A := fun s => (Ret a, s).
Definition raise {S A} (e : Exn) : M S A := fun s => (Raise e, s).
Definition spin {S A} : M S A := fun s => (Spin, s).

Definition bind {S A B} (m : M S A) (k : A -> M S B) : M S B :=
  fun s =>
    match m s with
    | (Ret a, s') => k a s'
    | (Raise e, s') => (Raise e, s')
    | (Spin, s') => (Spin, s')
    end.

Declare Scope py_scope.
Delimit Scope py_scope with py.
Notation "x <- m ;; k" := (bind m (fun x => k))
  (at level 100, m at next level, right associativity) : py_scope.
Notation "m ;; k" := (bind m (fun _ => k))
  (at level 100, right associativity) : py_scope.
Local Open Scope py_scope.

(** [try: body  except Exception as e: handler e]. *)
Definition try_except {S A} (body : M S A) (handler : Exn -> M S A) : M S A :=
  fun s =>
    match body s with
    | (Raise e, s') => if is_Exception e then handler e s' else (Raise e, s')
    | r => r
    end.

(** [try: body  except KeyboardInterrupt: handler]. *)
Definition try_except_interrupt {S} (body : M S unit) (handler : M S unit) : M S unit :=
  fun s =>
    match body s with
    | (Raise KeyboardInterrupt, s') => handler s'
    | r => r
    end.

(** [try: body  finally: cleanup].  The cleanup runs when the body returns or
    raises; an exception of the cleanup replaces the body's outcome. *)
Definition try_finally {S A} (body : M S A) (cleanup : M S unit) : M S A :=
  fun s =>
    match body s with
    | (Spin, s') => (Spin, s')
    | (r, s') =>
        match cleanup s' with
        | (Ret _, s'') => (r, s'')
        | (Raise e, s'') => (Raise e, s'')
        | (Spin, s'') => (Spin, s'')
        end
    end.

(** A computation on the world, run inside a method. *)
Definition lift {A} (m : M World A) : M State A :=
  fun st =>
    let (r, w) := m (world st) in
    (r, {| self := self st; world := w; stream_pipe := stream_pipe st |}).

Definition get_self : M State Self := fun st => (Ret (self st), st).

Definition modify_self (f : Self -> Self) : M State unit :=
  fun st => (Ret tt, {| self := f (self st); world := world st;
                        stream_pipe := stream_pipe st |}).

Definition get_stream_pipe : M State (Local Pipe) :=
  fun st => (Ret (stream_pipe st), st).

Definition set_stream_pipe (p : Local Pipe) : M State unit :=
  fun st => (Ret tt, {| self := self st; world := world st; stream_pipe := p |}).

(** Attribute stores. *)
Definition set_running_livestream (b : bool) (s : Self) : Self :=
  {| running_livestream := b; youtube_key := youtube_key s;
     youtube_url := youtube_url s; youtube_feed_url := youtube_feed_url s;
     livestream_duration := livestream_duration s; facts_url := facts_url s;
     facts := facts s; facts_count := facts_count s;
     motion_sensor_pin := motion_sensor_pin s; camera_text := camera_text s;
     tweet_interval := tweet_interval s; twitter_image := twitter_image s;
     camera := camera s; timestamp := timestamp s |}.

Definition set_facts (fs : list Fact) (n : nat) (s : Self) : Self :=
  {| running_livestream := running_livestream s; youtube_key := youtube_key s;
     youtube_url := youtube_url s; youtube_feed_url := youtube_feed_url s;
     livestream_duration := livestream_duration s; facts_url := facts_url s;
     facts := fs; facts_count := n;
     motion_sensor_pin := motion_sensor_pin s; camera_text := camera_text s;
     tweet_interval := tweet_interval s; twitter_image := twitter_image s;
     camera := camera s; timestamp := timestamp s |}.

Definition set_camera (c : Camera) (s : Self) : Self :=
  {| running_livestream := running_livestream s; youtube_key := youtube_key s;
     youtube_url := youtube_url s; youtube_feed_url := youtube_feed_url s;
     livestream_duration := livestream_duration s; facts_url := facts_url s;
     facts := facts s; facts_count := facts_count s;
     motion_sensor_pin := motion_sensor_pin s; camera_text := camera_text s;
     tweet_interval := tweet_interval s; twitter_image := twitter_image s;
     camera := c; timestamp := timestamp s |}.

Definition set_timestamp (t : datetime) (s : Self) : Self :=
  {| running_livestream := running_livestream s; youtube_key := youtube_key s;
     youtube_url := youtube_url s; youtube_feed_url := youtube_feed_url s;
     livestream_duration := livestream_duration s; facts_url := facts_url s;
     facts := facts s; facts_count := facts_count s;
     motion_sensor_pin := motion_sensor_pin s; camera_text := camera_text s;
     tweet_interval := tweet_interval s; twitter_image := twitter_image s;
     camera := camera s; timestamp := t |}.

(** ** The world's operations *)

Section Program.

Context (env : Env).

(** [logging.info] and friends; [time.sleep]. *)
Definition emit (ev : Event) : M World unit :=
  fun w => (Ret tt, {| reads := reads w; calls := calls w; draws := draws w;
                       trace := trace w ++ [ev] |}).

Definition logging (lvl : Level) (fmt : string) : M World unit := emit (Log lvl fmt).
Definition sleep (secs : Z) : M World unit := emit (Sleep secs).

(** A call to a collaborator: it is recorded, and the oracle says whether it
    raises.  [answer] builds the value of a successful call from its number. *)
Definition collab {A} (ev : Event) (answer : nat -> A) : M World A :=
  fun w =>
    let k := calls w in
    let w' := {| reads := reads w; calls := S k; draws := draws w;
                 trace := trace w ++ [ev] |} in
    match fate env k with
    | Some e => (Raise e, w')
    | None => (Ret (answer k), w')
    end.

Definition collab_ (ev : Event) : M World unit := collab ev (fun _ => tt).

(** [datetime.now()]. *)
Definition datetime_now : M World datetime :=
  fun w => (Ret (now_seq env (reads w)),
            {| reads := S (reads w); calls := calls w; draws := draws w;
               trace := trace w |}).

(** [random.randrange(n)]: a [ValueError] on an empty range. *)
Definition randrange (n : nat) : M World nat :=
  fun w =>
    match n with
    | O => (Raise ValueError, w)
    | S _ => (Ret (rand env (draws w) `mod` n)%nat,
              {| reads := reads w; calls := calls w; draws := S (draws w);
                 trace := trace w |})
    end.

(** A method call on [self.camera]: an [AttributeError] while the attribute
    is unset. *)
Definition camera_call (ev : Event) : M State unit :=
  s <- get_self ;;
  match camera s with
  | CamUnset => raise AttributeError
  | _ => lift (collab_ ev)
  end.

(** ** The methods *)

(** [_set_timestamp] (lines 140-146). *)
Definition _set_timestamp : M World datetime :=
  timestamp <- datetime_now ;;
  ret timestamp.

(** [_check_timestamp] (lines 148-161). *)
Definition _check_timestamp : M State bool :=
  curr_time <- lift datetime_now ;;
  s <- get_self ;;
  let time_since_tweet := curr_time - timestamp s in
  let secs_since_tweet := total_seconds time_since_tweet in
  match float_gt secs_since_tweet (tweet_interval s) with
  | inl e => raise e
  | inr true =>
      t <- lift _set_timestamp ;;
      modify_self (set_timestamp t) ;;
      ret true
  | inr false => ret false
  end.

(** [_initialize_camera] (lines 82-98). *)
Definition _initialize_camera : M State bool :=
  try_except
    (lift (logging INFO "Initializing camera") ;;
     lift (collab_ NewPiCamera) ;;
     modify_self (set_camera CamOpen) ;;
     camera_call (SetResolution 1024 768) ;;
     camera_call (SetFramerate 25) ;;
     s <- get_self ;;
     match camera_text s with
     | Some text =>
         if decide (text = "") then ret tt
         else camera_call (SetAnnotateText text)
     | None => ret tt
     end ;;
     lift (sleep 2) ;;
     ret true)
    (fun e =>
       lift (logging ERROR "Unable to initalize camera") ;;
       raise e).

(** [_close_camera] (lines 100-109). *)
Definition _close_camera : M State unit :=
  try_except
    (lift (logging INFO "Closing camera interface") ;;
     camera_call CameraClose ;;
     modify_self (set_camera CamClosed))
    (fun e =>
       lift (logging ERROR "Unable to close camera") ;;
       raise e).

(** [_create_twitter_api] (lines 111-138), with [use_camera] true.  Building
    the handler and the API object talks to nobody; the value returned here
    is the [self.twitter_image] the method sets. *)
Definition _create_twitter_api : M World string :=
  try_except
    (collab_ VerifyCredentials)
    (fun e =>
       logging ERROR "Error verifying Twitter API" ;;
       raise e) ;;
  logging INFO "Twitter API connected and verified" ;;
  logging INFO "Seetting up media information for Twitter" ;;
  let image_filename := "tweetpic.jpg" in
  let image_path := "/home/pi" in
  ret (image_path +:+ "/" +:+ image_filename).

(** [_image_capture] (lines 163-176). *)
Definition _image_capture : M State bool :=
  try_except
    (_initialize_camera ;;
     lift (logging INFO "Capturing image") ;;
     s <- get_self ;;
     camera_call (Capture (twitter_image s) true) ;;
     _close_camera ;;
     ret true)
    (fun e =>
       lift (logging ERROR "Unable to capture image.") ;;
       raise e).

(** [fact[key]]. *)
Definition getitem (fact : Fact) (key : string) : M State string :=
  match fact !! key with
  | Some v => ret v
  | None => raise KeyError
  end.

(** [_get_tweet_fact] (lines 211-231). *)
Definition _get_tweet_fact : M State string :=
  s <- get_self ;;
  fact_number <- lift (randrange (facts_count s)) ;;
  fact <- match facts s !! fact_number with
          | Some f => ret f
          | None => raise IndexError
          end ;;
  fact_type <- getitem fact "type" ;;
  fact_content <- getitem fact "content" ;;
  fact_author <- getitem fact "source" ;;
  let message := Unbound in
  let message :=
    if decide (fact_type = "fact")
    then Bound ("Chicken fact " +:+ pretty fact_number +:+ ": " +:+
                fact_content +:+ " source: " +:+ fact_author)
    else message in
  let message :=
    if decide (fact_type = "quote")
    then Bound ("Chicken Quote " +:+ pretty fact_number +:+ ": " +:+
                fact_content +:+ " --" +:+ fact_author)
    else message in
  match message with
  | Bound m => ret m
  | Unbound => raise UnboundLocalError
  end.

(** The text tweeted while a livestream runs (line 185). *)
Definition livestream_message (s : Self) : string :=
  "Hey! We're running a livestream right now! Come check us out at " +:+
  youtube_feed_url s.

(** [_send_tweet] (lines 178-209). *)
Definition _send_tweet : M State Z :=
  try_except
    (s <- get_self ;;
     update_id <-
       (if running_livestream s then
          let message := livestream_message s in
          lift (collab (UpdateStatus message None) (new_id env))
        else
          message <- _get_tweet_fact ;;
          captured <- _image_capture ;;
          if captured then
            lift (logging INFO "sending tweet with image") ;;
            s <- get_self ;;
            media_id <- lift (collab (MediaUpload (twitter_image s)) (new_id env)) ;;
            lift (logging DEBUG "uploading twitter media: %s") ;;
            lift (collab (UpdateStatus message (Some [media_id])) (new_id env))
          else
            lift (logging INFO "sending tweet without image") ;;
            lift (collab (UpdateStatus message None) (new_id env))) ;;
     lift (logging INFO "Updated Twitter status: %s") ;;
     ret update_id)
    (fun e =>
       lift (logging ERROR "Unable to send Twitter update") ;;
       raise e).

(** The [while True] loop of [_send_livestream] (lines 246-247), unrolled
    [fuel] times. *)
Fixpoint wait_recording_loop (fuel : nat) : M State unit :=
  match fuel with
  | O => spin
  | S fuel' =>
      s <- get_self ;;
      camera_call (WaitRecording (livestream_duration s)) ;;
      wait_recording_loop fuel'
  end.

(** [_send_livestream] (lines 233-256).  Its local [stream_pipe] starts
    unbound and is bound when [Popen] returns. *)
Definition _send_livestream (fuel : nat) : M State unit :=
  set_stream_pipe Unbound ;;
  try_finally
    (try_except_interrupt
       (modify_self (set_running_livestream true) ;;
        let youtube_url := "rtmp://a.rtmp.youtube.com/live2/" in
        s <- get_self ;;
        let stream_cmd :=
          "ffmpeg -f h264 -r 25 -i - -itsoffset 5.5 -fflags nobuffer -f alsa -ac 1 -i hw:1,0 -vcodec copy -acodec aac -ac 1 -ar 8000 -ab 32k -map 0:0 -map 1:0 -strict experimental -f flv "
          +:+ youtube_url +:+ youtube_key s in
        lift (collab_ (Popen stream_cmd)) ;;
        set_stream_pipe (Bound PipeOpen) ;;
        camera_call (StartRecording "h264" 2000000) ;;
        wait_recording_loop fuel)
       (camera_call StopRecording))
    (lift (logging INFO "Closing down livestream") ;;
     _close_camera ;;
     p <- get_stream_pipe ;;
     match p with
     | Unbound => raise UnboundLocalError
     | Bound _ =>
         lift (collab_ StdinClose) ;;
         set_stream_pipe (Bound PipeClosed)
     end ;;
     modify_self (set_running_livestream false)).

(** [_load_facts_file] (lines 259-272).  The method reads nothing of the
    object but [self.facts_url], given here as an argument. *)
Definition _load_facts_file (facts_url : string) : M World (list Fact * nat) :=
  logging INFO "Loading facts from %s" ;;
  content <- collab (HttpGet facts_url) (web env) ;;
  facts <- match yaml env content with
           | inl e => raise e
           | inr fs => ret fs
           end ;;
  let facts_count := length facts in
  logging INFO "Loaded %s facts" ;;
  ret (facts, facts_count).

(** [_motion_sensor] (lines 274-279). *)
Definition _motion_sensor : M State unit :=
  lift (logging INFO "Motion sensor event triggered") ;;
  _send_tweet ;;
  ret tt.

(** [_run_retrieve_facts] (lines 290-295). *)
Definition _run_retrieve_facts : M State unit :=
  lift (logging INFO "Starting Facts Thread") ;;
  lift (sleep 3600) ;;
  s <- get_self ;;
  loaded <- lift (_load_facts_file (facts_url s)) ;;
  let (fs, n) := loaded : list Fact * nat in
  modify_self (set_facts fs n).

(** [_run_livestream] (lines 297-302). *)
Definition _run_livestream (fuel : nat) : M State unit :=
  lift (logging INFO "Starting livestream thread") ;;
  lift (sleep 30) ;;
  _send_livestream fuel.

(** The values [__init__] reads from the configuration file, every section
    being enabled. *)
Record Config := {
  cfg_youtube_key : string;
  cfg_youtube_url : string;
  cfg_youtube_feed_url : string;
  cfg_duration : string;
  cfg_facts_url : string;
  cfg_gpio_pin : string;
  cfg_camera_text : string;
  cfg_tweet_interval : string;
}.

(** [__init__] (lines 20-80), every section of the configuration enabled. *)
Definition __init__ (config : Config) : M World Self :=
  logging DEBUG "Processing __init__.py" ;;
  loaded <- _load_facts_file (cfg_facts_url config) ;;
  let (fs, n) := loaded : list Fact * nat in
  logging INFO "Setting motion sensor pin number" ;;
  let text := if decide (cfg_camera_text config = "")
              then None else Some (cfg_camera_text config) in
  image <- _create_twitter_api ;;
  t <- _set_timestamp ;;
  ret {| running_livestream := false;
         youtube_key := cfg_youtube_key config;
         youtube_url := cfg_youtube_url config;
         youtube_feed_url := cfg_youtube_feed_url config;
         livestream_duration := PyStr (cfg_duration config);
         facts_url := cfg_facts_url config;
         facts := fs;
         facts_count := n;
         motion_sensor_pin := cfg_gpio_pin config;
         camera_text := text;
         tweet_interval := PyStr (cfg_tweet_interval config);
         twitter_image := image;
         camera := CamUnset;
         timestamp := t |}.

(** The object once [__init__] has returned. *)
Definition fresh (s : Self) (w : World) : State :=
  {| self := s; world := w; stream_pipe := Unbound |}.

End Program.

(** ** Driving the rate limiter *)

Section Attempts.

Context (env : Env).

Definition get_world : M State World := fun st => (Ret (world st), st).

(** [n] calls of [_check_timestamp] in a row.  Each is listed with the
    clock reading it takes as [curr_time] and with its answer. *)
Fixpoint admission_attempts (n : nat) : M State (list (datetime * bool)) :=
  match n with
  | O => ret []
  | S n' =>
      w <- get_world ;;
      let curr_time := now_seq env (reads w) in
      granted <- _check_timestamp env ;;
      rest <- admission_attempts n' ;;
      ret ((curr_time, granted) :: rest)
  end.

End Attempts.

(** The attempts of a history that were granted at a time in the window
    [[start, start + len)]. *)
Definition granted_within (start len : Z) (hist : list (datetime * bool)) :
    list (datetime * bool) :=
  filter (fun a => snd a = true /\ start <= fst a < start + len) hist.

(** ** Fixtures *)

Definition fact0 : Fact :=
  {[ "type" := "fact"; "content" := "Chickens dream."; "source" := "the coop" ]}.

Definition world0 : World := {| reads := 0; calls := 0; draws := 0; trace := [] |}.

Definition config0 : Config :=
  {| cfg_youtube_key := "key";
     cfg_youtube_url := "https://youtube.example/watch";
     cfg_youtube_feed_url := "https://youtu.be/coop";
     cfg_duration := "600";
     cfg_facts_url := "http://facts.example/facts.yml";
     cfg_gpio_pin := "4";
     cfg_camera_text := "";
     cfg_tweet_interval := "60" |}.

(** A coordinator whose interval is the number 60 and whose last publish was
    at time 0. *)
Definition self60 : Self :=
  {| running_livestream := false;
     youtube_key := "key";
     youtube_url := "https://youtube.example/watch";
     youtube_feed_url := "https://youtu.be/coop";
     livestream_duration := PyInt 600;
     facts_url := "http://facts.example/facts.yml";
     facts := [fact0];
     facts_count := 1;
     motion_sensor_pin := "4";
     camera_text := None;
     tweet_interval := PyInt 60;
     twitter_image := "/home/pi/tweetpic.jpg";
     camera := CamUnset;
     timestamp := 0 |}.

Definition state60 : State := {| self := self60; world := world0; stream_pipe := Unbound |}.

(** Healthy collaborators; the clock reads [first], then advances by [step]
    microseconds per reading. *)
Definition healthy (first step : Z) : Env :=
  {| now_seq := fun k => first + step * Z.of_nat k;
     fate := fun _ => None;
     rand := fun k => k;
     web := fun _ => "- {type: fact, content: Chickens dream., source: the coop}";
     yaml := fun _ => inr [fact0];
     new_id := fun k => 1000 + Z.of_nat k |}.

(** As [healthy], but the [k]-th collaborator call raises [e]. *)
Definition failing_at (first step : Z) (k : nat) (e : Exn) : Env :=
  {| now_seq := now_seq (healthy first step);
     fate := fun j => if decide (j = k) then Some e else None;
     rand := rand (healthy first step);
     web := web (healthy first step);
     yaml := yaml (healthy first step);
     new_id := new_id (healthy first step) |}.

(** ** Predicates on states *)

(** [keeps P m]: running [m] from a state where [P] holds ends, whatever the
    outcome, in a state where [P] holds. *)
Definition keeps {S A} (P : S -> Prop) (m : M S A) : Prop :=
  forall s, P s -> P (snd (m s)).


Definition is_fetch (ev : Event) : bool :=
  match ev with HttpGet _ => true | _ => false end.

(** How many times a trace asks the facts server. *)
Definition fetches (t : list Event) : nat := length (filter is_fetch t).

(** The object [__init__] builds from [config0] when every collaborator is
    healthy, and the world it leaves. *)
Definition coop_self : Self :=
  {| running_livestream := false;
     youtube_key := "key";
     youtube_url := "https://youtube.example/watch";
     youtube_feed_url := "https://youtu.be/coop";
     livestream_duration := PyStr "600";
     facts_url := "http://facts.example/facts.yml";
     facts := [fact0];
     facts_count := 1;
     motion_sensor_pin := "4";
     camera_text := None;
     tweet_interval := PyStr "60";
     twitter_image := "/home/pi/tweetpic.jpg";
     camera := CamUnset;
     timestamp := 0 |}.

Definition coop_world : World :=
  {| reads := 1; calls := 2; draws := 0;
     trace := [Log DEBUG "Processing __init__.py";
               Log INFO "Loading facts from %s";
               HttpGet "http://facts.example/facts.yml";
               Log INFO "Loaded %s facts";
               Log INFO "Setting motion sensor pin number";
               VerifyCredentials;
               Log INFO "Twitter API connected and verified";
               Log INFO "Seetting up media information for Twitter"] |}.

Definition coop : State := fresh coop_self coop_world.

(** The states the object goes through: built by [__init__], then any of its
    methods run any number of times, to any outcome. *)
Inductive step (env : Env) : State -> State -> Prop :=
  | step_check_timestamp st :
      step env st (snd (_check_timestamp env st))
  | step_motion_sensor st :
      step env st (snd (_motion_sensor env st))
  | step_run_retrieve_facts st :
      step env st (snd (_run_retrieve_facts env st))
  | step_run_livestream fuel st :
      step env st (snd (_run_livestream env fuel st)).

Inductive reachable (env : Env) : State -> Prop :=
  | reach_init config w s w' :
      __init__ env config w = (Ret s, w') ->
      reachable env (fresh s w')
  | reach_step st st' :
      reachable env st -> step env st st' -> reachable env st'.

Definition is_log (ev : Event) : bool :=
  match ev with Log _ _ => true | _ => false end.

(** A livestream is on, 5 s after the last publish. *)
Definition state_live : State :=
  {| self := set_running_livestream true (set_camera CamOpen self60);
     world := world0;
     stream_pipe := Bound PipeOpen |}.

(** The clock has been read [r] times and the stored timestamp is [t]. *)
Definition limiter_at (r : nat) (t : datetime) (st : State) : Prop :=
  reads (world st) = r /\ timestamp (self st) = t.

(** The ffmpeg command of [_send_livestream]. *)
Definition stream_cmd (s : Self) : string :=
  "ffmpeg -f h264 -r 25 -i - -itsoffset 5.5 -fflags nobuffer -f alsa -ac 1 -i hw:1,0 -vcodec copy -acodec aac -ac 1 -ar 8000 -ab 32k -map 0:0 -map 1:0 -strict experimental -f flv "
  +:+ "rtmp://a.rtmp.youtube.com/live2/" +:+ youtube_key s.

(** A coordinator holding an open camera, as left behind by a capture that
    failed. *)
Definition state_open : State :=
  {| self := set_camera CamOpen self60; world := world0; stream_pipe := Unbound |}.

(** ** Outcomes of a run *)

(** [post m s Q]: the outcome of running [m] from [s], and the state it
    ends in, satisfy [Q]. *)
Definition post {S A} (m : M S A) (s : S) (Q : Res A -> S -> Prop) : Prop :=
  Q (fst (m s)) (snd (m s)).
Arguments post : simpl never.

Definition is_publish (ev : Event) : bool :=
  match ev with UpdateStatus _ _ => true | _ => false end.

Definition is_camera_event (ev : Event) : bool :=
  match ev with
  | NewPiCamera | SetResolution _ _ | SetFramerate _ | SetAnnotateText _
  | Capture _ _ | CameraClose | StartRecording _ _ | WaitRecording _
  | StopRecording => true
  | _ => false
  end.

(** A status update carries exactly one media id; any other event passes. *)
Definition carries_one_media (ev : Event) : bool :=
  match ev with
  | UpdateStatus _ (Some [_]) => true
  | UpdateStatus _ _ => false
  | _ => true
  end.

Definition is_upload (ev : Event) : bool :=
  match ev with MediaUpload _ => true | _ => false end.

(** What [__init__] stores in the object, given the facts it loaded and the
    clock reading it took. *)
Definition built (config : Config) (fs : list Fact) (t : datetime) : Self :=
  {| running_livestream := false;
     youtube_key := cfg_youtube_key config;
     youtube_url := cfg_youtube_url config;
     youtube_feed_url := cfg_youtube_feed_url config;
     livestream_duration := PyStr (cfg_duration config);
     facts_url := cfg_facts_url config;
     facts := fs;
     facts_count := length fs;
     motion_sensor_pin := cfg_gpio_pin config;
     camera_text := if decide (cfg_camera_text config = "")
                    then None else Some (cfg_camera_text config);
     tweet_interval := PyStr (cfg_tweet_interval config);
     twitter_image := "/home/pi/tweetpic.jpg";
     camera := CamUnset;
     timestamp := t |}.

Definition not_camera_event (ev : Event) : bool := negb (is_camera_event ev).

(** ** More fixtures *)

(** What the state is after a motion event that failed before any
    collaborator was called: two log lines more, nothing else. *)
Definition motion_refused (st : State) : State :=
  {| self := self st;
     world := {| reads := reads (world st); calls := calls (world st);
                 draws := draws (world st);
                 trace := trace (world st) ++
                          [Log INFO "Motion sensor event triggered";
                           Log ERROR "Unable to send Twitter update"] |};
     stream_pipe := stream_pipe st |}.

(** A coordinator whose collection is empty. *)
Definition state_empty : State :=
  {| self := set_facts [] 0 self60; world := world0; stream_pipe := Unbound |}.

(** An entry with a type and nothing else. *)
Definition fact_bare : Fact := {[ "type" := "fact" ]}.

Definition state_bare : State :=
  {| self := set_facts [fact_bare] 1 self60; world := world0; stream_pipe := Unbound |}.

(** An entry of a kind the code does not know. *)
Definition fact_joke : Fact :=
  {[ "type" := "joke"; "content" := "Why did the chicken cross the road?";
     "source" := "anonymous" ]}.

Definition state_joke : State :=
  {| self := set_facts [fact_joke] 1 self60; world := world0; stream_pipe := Unbound |}.

(** As [healthy], but the [k]-th collaborator call is interrupted. *)
Definition interrupted_at (k : nat) : Env := failing_at 0 1 k KeyboardInterrupt.

(** As [healthy], but the facts file holds no entry. *)
Definition healthy_no_facts : Env :=
  {| now_seq := now_seq (healthy 0 1); fate := fate (healthy 0 1);
     rand := rand (healthy 0 1); web := fun _ => "[]";
     yaml := fun _ => inr []; new_id := new_id (healthy 0 1) |}.

(** * Properties *)

(** ** The rate limiter *)

Lemma float_gt_int (d : timedelta) (i : Z) :
  float_gt (total_seconds d) (PyInt i) = inr (bool_decide (i * 1000000 < d)).
Proof.
  unfold float_gt, total_seconds. f_equal.
  destruct (Qle_bool (d # 1000000) (inject_Z i)) eqn:E; symmetry.
  - apply Qle_bool_iff in E. unfold Qle in E. simpl in E.
    apply bool_decide_eq_false. lia.
  - apply bool_decide_eq_true.
    destruct (Z_lt_le_dec (i * 1000000) d) as [|H]; [done|].
    assert (Qle_bool (d # 1000000) (inject_Z i) = true) as E'; [|congruence].
    apply Qle_bool_iff. unfold Qle. simpl. lia.
Qed.


Lemma total_seconds_le (d : timedelta) (i : Z) :
  (inject_Z i <= total_seconds d)%Q <-> i * 1000000 <= d.
Proof. unfold Qle, total_seconds. simpl. lia. Qed.

(** What one call of [_check_timestamp] does when the interval is a number. *)
Lemma check_timestamp_run (env : Env) (st : State) (i : Z) :
  tweet_interval (self st) = PyInt i ->
  let w := world st in
  let now := now_seq env (reads w) in
  _check_timestamp env st =
    if bool_decide (i * 1000000 < now - timestamp (self st))
    then (Ret true,
          {| self := set_timestamp (now_seq env (S (reads w))) (self st);
             world := {| reads := S (S (reads w)); calls := calls w;
                         draws := draws w; trace := trace w |};
             stream_pipe := stream_pipe st |})
    else (Ret false,
          {| self := self st;
             world := {| reads := S (reads w); calls := calls w;
                         draws := draws w; trace := trace w |};
             stream_pipe := stream_pipe st |}).
Proof.
  intros Hi. unfold _check_timestamp, bind, lift, get_self, datetime_now. simpl.
  rewrite Hi, float_gt_int.
  destruct (bool_decide _); reflexivity.
Qed.



(** On the object [__init__] builds the interval is the configuration
    string, and the comparison of line 156 raises. *)
Example check_timestamp_on_coop :
  fst (_check_timestamp (healthy 0 1) coop) = Raise TypeError.
Proof. reflexivity. Qed.


Lemma bind_run_ret {S A B} (m : M S A) (k : A -> M S B) (s s' : S) (a : A) :
  m s = (Ret a, s') -> bind m k s = k a s'.
Proof. intros H. unfold bind. rewrite H. reflexivity. Qed.

Lemma bind_run_raise {S A B} (m : M S A) (k : A -> M S B) (s s' : S) (e : Exn) :
  m s = (Raise e, s') -> bind m k s = (Raise e, s').
Proof. intros H. unfold bind. rewrite H. reflexivity. Qed.

Lemma bind_run_spin {S A B} (m : M S A) (k : A -> M S B) (s s' : S) :
  m s = (Spin, s') -> bind m k s = (Spin, s').
Proof. intros H. unfold bind. rewrite H. reflexivity. Qed.

Section Clock.

Context (env : Env).
Hypothesis clock_monotone : forall k, now_seq env k <= now_seq env (S k).

Lemma clock_mono (j k : nat) : (j <= k)%nat -> now_seq env j <= now_seq env k.
Proof.
  induction 1 as [|k _ IH]; [lia|].
  specialize (clock_monotone k). lia.
Qed.

(** A run of [n] attempts from any state, on a clock that does not go back:
    it returns; every attempt is made at a reading of the clock not yet
    taken; every granted attempt is more than the interval after the time
    stored at the start; and any two granted attempts are more than the
    interval apart. *)
Lemma admission_attempts_run (i : Z) (n : nat) :
  forall st : State,
    tweet_interval (self st) = PyInt i ->
    exists (hist : list (datetime * bool)) (st' : State),
      admission_attempts env n st = (Ret hist, st') /\
      length hist = n /\
      (forall t ok, (t, ok) ∈ hist ->
         exists k, (reads (world st) <= k)%nat /\ t = now_seq env k) /\
      (forall t, (t, true) ∈ hist -> i * 1000000 < t - timestamp (self st)) /\
      (forall a b ta tb, (a < b)%nat ->
         hist !! a = Some (ta, true) -> hist !! b = Some (tb, true) ->
         i * 1000000 < tb - ta).
Proof.
  induction n as [|n IH]; intros st Hi.
  - exists [], st. repeat split; try done.
    + intros t ok H. inversion H.
    + intros t H. inversion H.
  - cbn [admission_attempts]. unfold get_world.
    rewrite (bind_run_ret _ _ st st (world st)) by reflexivity.
    pose proof (check_timestamp_run env st i Hi) as Hrun. cbv zeta in Hrun.
    case_bool_decide as Hlt.
    + (* granted *)
      rewrite (bind_run_ret _ _ _ _ _ Hrun).
      match type of Hrun with _ = (_, ?s1) => set (st1 := s1) in * end.
      destruct (IH st1 Hi) as (hist & st' & Hrest & Hlen & Hat & Hfar & Hpair).
      rewrite (bind_run_ret _ _ _ _ _ Hrest).
      exists ((now_seq env (reads (world st)), true) :: hist), st'.
      split; [reflexivity|]. split; [simpl; lia|].
      assert (Hlater : forall t, (t, true) ∈ hist ->
                 now_seq env (reads (world st)) <= t /\
                 i * 1000000 < t - now_seq env (reads (world st))).
      { intros t Ht. specialize (Hfar t Ht). simpl in Hfar.
        destruct (Hat t true Ht) as (k & Hk & ->). simpl in Hk.
        pose proof (clock_monotone (reads (world st))).
        pose proof (clock_mono (S (reads (world st))) k). lia. }
      split; [|split].
      * intros t ok [Heq|Hin]%elem_of_cons.
        -- inversion Heq; subst. exists (reads (world st)). split; [lia|done].
        -- destruct (Hat t ok Hin) as (k & Hk & ->). simpl in Hk.
           exists k. split; [lia|done].
      * intros t [Heq|Hin]%elem_of_cons.
        -- inversion Heq; subst. done.
        -- destruct (Hlater t Hin). lia.
      * intros a b ta tb Hab Ha Hb.
        destruct b as [|b]; [lia|]. simpl in Hb.
        destruct a as [|a]; simpl in Ha.
        -- inversion Ha; subst.
           apply list_elem_of_lookup_2 in Hb. destruct (Hlater tb Hb). lia.
        -- apply (Hpair a b); [lia|done..].
    + (* refused *)
      rewrite (bind_run_ret _ _ _ _ _ Hrun).
      match type of Hrun with _ = (_, ?s1) => set (st1 := s1) in * end.
      destruct (IH st1 Hi) as (hist & st' & Hrest & Hlen & Hat & Hfar & Hpair).
      rewrite (bind_run_ret _ _ _ _ _ Hrest).
      exists ((now_seq env (reads (world st)), false) :: hist), st'.
      split; [reflexivity|]. split; [simpl; lia|].
      split; [|split].
      * intros t ok [Heq|Hin]%elem_of_cons.
        -- inversion Heq; subst. exists (reads (world st)). split; [lia|done].
        -- destruct (Hat t ok Hin) as (k & Hk & ->). simpl in Hk.
           exists k. split; [lia|done].
      * intros t [Heq|Hin]%elem_of_cons.
        -- inversion Heq.
        -- apply (Hfar t Hin).
      * intros a b ta tb Hab Ha Hb.
        destruct b as [|b]; [lia|]. simpl in Hb.
        destruct a as [|a]; simpl in Ha; [inversion Ha|].
        apply (Hpair a b); [lia|done..].
Qed.

End Clock.

(** Two elements of a list that pass a filter sit at two positions of it. *)
Lemma filter_two_positions {A} (P : A -> Prop) `{!forall x, Decision (P x)} (l : list A) :
  (2 <= length (filter P l))%nat ->
  exists a b x y, (a < b)%nat /\ l !! a = Some x /\ l !! b = Some y /\ P x /\ P y.
Proof.
  induction l as [|z l IH]; simpl; [lia|].
  rewrite filter_cons. destruct (decide (P z)) as [Hz|Hz]; simpl; intros Hlen.
  - destruct (filter P l) as [|y f] eqn:Hf; [simpl in Hlen; lia|].
    assert (y ∈ filter P l) as Hy by (rewrite Hf; left).
    apply list_elem_of_filter in Hy as [HPy Hy].
    apply list_elem_of_lookup_1 in Hy as [b Hb].
    exists 0%nat, (S b), z, y. repeat split; try done. lia.
  - destruct (IH Hlen) as (a & b & x & y & Hab & Ha & Hb & Hx & Hy).
    exists (S a), (S b), x, y. repeat split; try done. lia.
Qed.

(** C3: whatever the state the rate limiter starts from, a sequence of
    admission attempts made at increasing clock readings (strictly or not:
    two readings may fall in the same microsecond) returns its answers, and
    among them (1) within any time window shorter than the interval at most
    one attempt is granted, and (2) any two granted attempts are at least
    the interval apart. *)
Theorem admissions_at_least_interval_apart
    (env : Env) (st : State) (i : Z) (n : nat) :
  (forall k, now_seq env k <= now_seq env (S k)) ->
  tweet_interval (self st) = PyInt i ->
  exists (hist : list (datetime * bool)) (st' : State),
    admission_attempts env n st = (Ret hist, st') /\
    length hist = n /\
    (forall start len : Z,
       (total_seconds len < inject_Z i)%Q ->
       (length (granted_within start len hist) <= 1)%nat) /\
    (forall a b ta tb, (a < b)%nat ->
       hist !! a = Some (ta, true) -> hist !! b = Some (tb, true) ->
       (inject_Z i <= total_seconds (tb - ta))%Q).
Proof.
  intros Hclock Hi.
  destruct (admission_attempts_run env Hclock i n st Hi)
    as (hist & st' & Hrun & Hlen & _ & _ & Hpair).
  exists hist, st'. repeat split; try done.
  - intros start len Hshort.
    destruct (decide (2 <= length (granted_within start len hist))%nat) as [Htwo|]; [|lia].
    apply filter_two_positions in Htwo
      as (a & b & [ta oka] & [tb okb] & Hab & Ha & Hb & [Hoka Hina] & [Hokb Hinb]).
    simpl in *. subst oka okb.
    pose proof (Hpair a b ta tb Hab Ha Hb).
    unfold Qlt, total_seconds in Hshort. simpl in Hshort. lia.
  - intros a b ta tb Hab Ha Hb. apply total_seconds_le.
    pose proof (Hpair a b ta tb Hab Ha Hb). lia.
Qed.

(** Five attempts on a clock that reads 40 s, 80 s, ..., with an interval
    of 60 s and the last publish at time 0. *)
Lemma admissions_at_least_interval_apart_witness :
  exists (hist : list (datetime * bool)) (st' : State),
    admission_attempts (healthy 40000000 40000000) 5 state60 = (Ret hist, st') /\
    length hist = 5%nat /\
    (forall start len : Z,
       (total_seconds len < inject_Z 60)%Q ->
       (length (granted_within start len hist) <= 1)%nat) /\
    (forall a b ta tb, (a < b)%nat ->
       hist !! a = Some (ta, true) -> hist !! b = Some (tb, true) ->
       (inject_Z 60 <= total_seconds (tb - ta))%Q).
Proof.
  apply (admissions_at_least_interval_apart (healthy 40000000 40000000) state60 60 5).
  - intros k. simpl. lia.
  - reflexivity.
Defined.

(** The same run, evaluated: the attempts at 80 s and 200 s are granted (the
    granted ones read the clock a second time). *)
Example admission_attempts_40s :
  fst (admission_attempts (healthy 40000000 40000000) 5 state60) =
  Ret [(40000000, false); (80000000, true); (160000000, false);
       (200000000, true); (280000000, false)].
Proof. vm_compute. reflexivity. Qed.

(** ** Frame lemmas *)

Section Keeps.

Context {S : Type} (P : S -> Prop).

Lemma keeps_ret {A} (a : A) : keeps P (ret a).
Proof. intros s H. exact H. Qed.

Lemma keeps_raise {A} (e : Exn) : keeps P (@raise S A e).
Proof. intros s H. exact H. Qed.

Lemma keeps_spin {A} : keeps P (@spin S A).
Proof. intros s H. exact H. Qed.

Lemma keeps_bind {A B} (m : M S A) (k : A -> M S B) :
  keeps P m -> (forall a, keeps P (k a)) -> keeps P (bind m k).
Proof.
  intros Hm Hk s H. unfold bind. specialize (Hm s H).
  destruct (m s) as [[a|e|] s']; simpl in *; [apply Hk|..]; done.
Qed.

Lemma keeps_try_except {A} (body : M S A) (handler : Exn -> M S A) :
  keeps P body -> (forall e, keeps P (handler e)) -> keeps P (try_except body handler).
Proof.
  intros Hb Hh s H. unfold try_except. specialize (Hb s H).
  destruct (body s) as [[a|e|] s']; simpl in *; try done.
  destruct (is_Exception e); [apply Hh|]; done.
Qed.

Lemma keeps_try_except_interrupt (body handler : M S unit) :
  keeps P body -> keeps P handler -> keeps P (try_except_interrupt body handler).
Proof.
  intros Hb Hh s H. unfold try_except_interrupt. specialize (Hb s H).
  destruct (body s) as [[a|e|] s']; simpl in *; try done.
  destruct e; simpl; try done. by apply Hh.
Qed.

Lemma keeps_try_finally {A} (body : M S A) (cleanup : M S unit) :
  keeps P body -> keeps P cleanup -> keeps P (try_finally body cleanup).
Proof.
  intros Hb Hc s H. unfold try_finally. specialize (Hb s H).
  destruct (body s) as [[a|e|] s']; simpl in *; try done;
    specialize (Hc s' Hb); destruct (cleanup s') as [[[]|e'|] s'']; done.
Qed.

End Keeps.

Create HintDb keeps.

#[local] Hint Resolve keeps_ret keeps_raise keeps_spin keeps_bind keeps_try_except
  keeps_try_except_interrupt keeps_try_finally : keeps.

#[local] Hint Extern 1 (keeps _ (match ?x with _ => _ end)) => destruct x : keeps.

(** The primitives: unfold and look. *)
Ltac keeps_leaf :=
  let s := fresh "s" in
  let H := fresh "H" in
  intros s H;
  unfold lift, collab_, collab, emit, logging, sleep, datetime_now, randrange,
    get_self, get_world, modify_self, get_stream_pipe, set_stream_pipe;
  simpl; repeat case_match; simplify_eq; simpl; try done.

#[local] Hint Extern 5 (keeps _ (lift _)) => keeps_leaf : keeps.
#[local] Hint Extern 5 (keeps _ get_self) => keeps_leaf : keeps.
#[local] Hint Extern 5 (keeps _ get_stream_pipe) => keeps_leaf : keeps.
#[local] Hint Extern 5 (keeps _ (set_stream_pipe _)) => keeps_leaf : keeps.
#[local] Hint Extern 5 (keeps _ (modify_self _)) => keeps_leaf : keeps.

Ltac solve_keeps := eauto 40 with keeps.

(** *** What no method but the facts refresh touches: the facts *)

Section FactsFrame.

Context (env : Env).












End FactsFrame.

(** ** The facts refresh *)

(** What [_load_facts_file] does, by the fate of its GET and of the parse. *)
Lemma load_facts_file_run (env : Env) (url : string) (w : World) :
  let k := calls w in
  let asked :=
    {| reads := reads w; calls := S k; draws := draws w;
       trace := (trace w ++ [Log INFO "Loading facts from %s"]) ++ [HttpGet url] |} in
  _load_facts_file env url w =
    match fate env k with
    | Some e => (Raise e, asked)
    | None =>
        match yaml env (web env k) with
        | inl e => (Raise e, asked)
        | inr fs =>
            (Ret (fs, length fs),
             {| reads := reads w; calls := S k; draws := draws w;
                trace := trace asked ++ [Log INFO "Loaded %s facts"] |})
        end
    end.
Proof.
  unfold _load_facts_file, bind, logging, emit, collab. simpl.
  destruct (fate env (calls w)); [reflexivity|].
  destruct (yaml env (web env (calls w))); reflexivity.
Qed.

(** What [_run_retrieve_facts] does. *)
Lemma run_retrieve_facts_run (env : Env) (st : State) :
  let w := world st in
  let k := calls w in
  let asked :=
    {| reads := reads w; calls := S k; draws := draws w;
       trace := (((trace w ++ [Log INFO "Starting Facts Thread"]) ++ [Sleep 3600])
                 ++ [Log INFO "Loading facts from %s"])
                ++ [HttpGet (facts_url (self st))] |} in
  _run_retrieve_facts env st =
    match fate env k with
    | Some e => (Raise e, {| self := self st; world := asked;
                             stream_pipe := stream_pipe st |})
    | None =>
        match yaml env (web env k) with
        | inl e => (Raise e, {| self := self st; world := asked;
                                stream_pipe := stream_pipe st |})
        | inr fs =>
            (Ret tt,
             {| self := set_facts fs (length fs) (self st);
                world := {| reads := reads w; calls := S k; draws := draws w;
                            trace := trace asked ++ [Log INFO "Loaded %s facts"] |};
                stream_pipe := stream_pipe st |})
        end
    end.
Proof.
  unfold _run_retrieve_facts, bind, lift, get_self, modify_self, logging, sleep, emit.
  simpl. rewrite load_facts_file_run. simpl.
  destruct (fate env (calls (world st))); [reflexivity|].
  destruct (yaml env (web env (calls (world st)))); reflexivity.
Qed.



(** C8, as the code has it: the facts thread sleeps one period of 3600 s,
    makes one refresh attempt and ends, whether the attempt succeeds or
    fails: it makes exactly one request to the facts server and never stays
    in a loop. *)
Theorem refresh_runs_once (env : Env) (st : State) :
  let r := _run_retrieve_facts env st in
  fst r <> Spin /\
  calls (world (snd r)) = S (calls (world st)) /\
  fetches (trace (world (snd r))) = S (fetches (trace (world st))) /\
  exists tail,
    trace (world (snd r)) =
      trace (world st) ++
      [Log INFO "Starting Facts Thread"; Sleep 3600;
       Log INFO "Loading facts from %s"; HttpGet (facts_url (self st))] ++ tail /\
    (tail = [] \/ tail = [Log INFO "Loaded %s facts"]).
Proof.
  intros r. subst r. rewrite run_retrieve_facts_run. cbv zeta.
  assert (Hcount : forall tail, Forall (fun ev => is_fetch ev = false) tail ->
            fetches (trace (world st) ++
              [Log INFO "Starting Facts Thread"; Sleep 3600;
               Log INFO "Loading facts from %s"; HttpGet (facts_url (self st))] ++ tail)
            = S (fetches (trace (world st)))).
  { intros tail Htail. unfold fetches. rewrite filter_app, length_app. simpl.
    assert (filter is_fetch tail = []) as ->; [|simpl; lia].
    induction Htail as [|x l Hx _ IH]; [done|].
    rewrite filter_cons, IH. destruct (decide (is_fetch x)) as [Hd|]; [|done].
    rewrite Hx in Hd. done. }
  destruct (fate env (calls (world st))) as [e|];
    [|destruct (yaml env (web env (calls (world st)))) as [e|fs]]; simpl.
  - repeat split; try done.
    + rewrite <- !app_assoc. apply (Hcount []). constructor.
    + exists []. rewrite <- !app_assoc. split; [done|by left].
  - repeat split; try done.
    + rewrite <- !app_assoc. apply (Hcount []). constructor.
    + exists []. rewrite <- !app_assoc. split; [done|by left].
  - repeat split; try done.
    + rewrite <- !app_assoc. apply (Hcount [_]). repeat constructor.
    + exists [Log INFO "Loaded %s facts"]. rewrite <- !app_assoc. split; [done|by right].
Qed.

(** C8 as the specification words it fails: with healthy collaborators the
    facts thread has returned after its first refresh, and no second request
    was made. *)
Lemma refresh_does_not_recur :
  fst (_run_retrieve_facts (healthy 0 1) state60) = Ret tt /\
  ~ (2 <= fetches (trace (world (snd (_run_retrieve_facts (healthy 0 1) state60)))))%nat.
Proof. split; [reflexivity|]. vm_compute. lia. Qed.

Example init_coop : __init__ (healthy 0 1) config0 world0 = (Ret coop_self, coop_world).
Proof. vm_compute. reflexivity. Qed.






(** ** Motion events *)

(** What a motion event does while a livestream runs. *)
Lemma motion_sensor_livestream_run (env : Env) (st : State) :
  running_livestream (self st) = true ->
  let w := world st in
  let k := calls w in
  let said :=
    (trace w ++ [Log INFO "Motion sensor event triggered"])
    ++ [UpdateStatus (livestream_message (self st)) None] in
  let after t :=
    {| self := self st;
       world := {| reads := reads w; calls := S k; draws := draws w; trace := t |};
       stream_pipe := stream_pipe st |} in
  _motion_sensor env st =
    match fate env k with
    | None => (Ret tt, after (said ++ [Log INFO "Updated Twitter status: %s"]))
    | Some e =>
        if is_Exception e
        then (Raise e, after (said ++ [Log ERROR "Unable to send Twitter update"]))
        else (Raise e, after said)
    end.
Proof.
  intros Hlive.
  unfold _motion_sensor, _send_tweet, try_except, bind, lift, get_self,
    logging, emit, collab. simpl. rewrite Hlive. simpl.
  destruct (fate env (calls (world st))) as [e|]; [|reflexivity].
  destruct e; reflexivity.
Qed.

(** C6: a motion event handled while the livestream flag is set makes one
    collaborator call, the status update whose text is the livestream
    announcement and which carries no media; apart from log lines nothing
    else is done to the outside (no camera call, so no capture), the clock
    is not read and the object, with its timestamp, is unchanged: the
    interval check plays no part, whatever the timestamp and the interval
    are. *)
Theorem motion_during_livestream_announces (env : Env) (st : State) :
  running_livestream (self st) = true ->
  let r := _motion_sensor env st in
  (exists tail,
     trace (world (snd r)) =
       trace (world st) ++
       [Log INFO "Motion sensor event triggered";
        UpdateStatus (livestream_message (self st)) None] ++ tail /\
     Forall (fun ev => is_log ev = true) tail) /\
  calls (world (snd r)) = S (calls (world st)) /\
  reads (world (snd r)) = reads (world st) /\
  self (snd r) = self st.
Proof.
  intros Hlive r. subst r. rewrite (motion_sensor_livestream_run env st Hlive).
  cbv zeta.
  destruct (fate env (calls (world st))) as [e|]; [destruct (is_Exception e)|];
    simpl; (split; [|done]); rewrite <- !app_assoc; simpl.
  - exists [Log ERROR "Unable to send Twitter update"]. split; [done|].
    repeat constructor.
  - exists []. split; [done|]. constructor.
  - exists [Log INFO "Updated Twitter status: %s"]. split; [done|].
    repeat constructor.
Qed.

(** The theorem 5 s after the last publish, interval 60 s: the announcement
    goes out. *)
Lemma motion_during_livestream_announces_witness :
  running_livestream (self state_live) = true /\
  trace (world (snd (_motion_sensor (healthy 5000000 1) state_live))) =
    [Log INFO "Motion sensor event triggered";
     UpdateStatus
       "Hey! We're running a livestream right now! Come check us out at https://youtu.be/coop"
       None;
     Log INFO "Updated Twitter status: %s"] /\
  reads (world (snd (_motion_sensor (healthy 5000000 1) state_live))) = 0%nat.
Proof.
  destruct (motion_during_livestream_announces (healthy 5000000 1) state_live eq_refl)
    as (_ & _ & Hreads & _).
  split; [reflexivity|]. split; [vm_compute; reflexivity|exact Hreads].
Defined.

(** *** No method that a motion event runs looks at the clock *)

Section LimiterFrame.

Context (env : Env) (r : nat) (t : datetime).

Lemma camera_call_keeps_limiter ev : keeps (limiter_at r t) (camera_call env ev).
Proof. unfold camera_call. solve_keeps. Qed.

Lemma initialize_camera_keeps_limiter : keeps (limiter_at r t) (_initialize_camera env).
Proof.
  pose proof camera_call_keeps_limiter.
  unfold _initialize_camera. solve_keeps.
Qed.

Lemma close_camera_keeps_limiter : keeps (limiter_at r t) (_close_camera env).
Proof.
  pose proof camera_call_keeps_limiter.
  unfold _close_camera. solve_keeps.
Qed.

Lemma image_capture_keeps_limiter : keeps (limiter_at r t) (_image_capture env).
Proof.
  pose proof camera_call_keeps_limiter.
  pose proof initialize_camera_keeps_limiter.
  pose proof close_camera_keeps_limiter.
  unfold _image_capture. solve_keeps.
Qed.

Lemma get_tweet_fact_keeps_limiter : keeps (limiter_at r t) (_get_tweet_fact env).
Proof. unfold _get_tweet_fact, getitem. solve_keeps. Qed.

Lemma send_tweet_keeps_limiter : keeps (limiter_at r t) (_send_tweet env).
Proof.
  pose proof image_capture_keeps_limiter.
  pose proof get_tweet_fact_keeps_limiter.
  unfold _send_tweet. solve_keeps.
Qed.

Lemma motion_sensor_keeps_limiter : keeps (limiter_at r t) (_motion_sensor env).
Proof.
  pose proof send_tweet_keeps_limiter.
  unfold _motion_sensor. solve_keeps.
Qed.

End LimiterFrame.

(** A motion event, whatever its outcome, neither reads the clock nor
    changes the stored timestamp: [_check_timestamp] is not on its path. *)
Lemma motion_sensor_ignores_limiter (env : Env) (st : State) :
  reads (world (snd (_motion_sensor env st))) = reads (world st) /\
  timestamp (self (snd (_motion_sensor env st))) = timestamp (self st).
Proof. by apply motion_sensor_keeps_limiter. Qed.

(** C1 does not hold of the code.  Interval 60 s, last publish at time 0,
    no livestream, the clock at 30 s: [_check_timestamp] would refuse, yet
    the motion event captures an image and publishes it with the fact text,
    never having read the clock.  And in general a motion event neither
    reads the clock nor touches the timestamp. *)
Theorem motion_publishes_although_interval_not_elapsed :
  fst (_check_timestamp (healthy 30000000 1) state60) = Ret false /\
  fst (_motion_sensor (healthy 30000000 1) state60) = Ret tt /\
  trace (world (snd (_motion_sensor (healthy 30000000 1) state60))) =
    [Log INFO "Motion sensor event triggered";
     Log INFO "Initializing camera"; NewPiCamera;
     SetResolution 1024 768; SetFramerate 25; Sleep 2;
     Log INFO "Capturing image"; Capture "/home/pi/tweetpic.jpg" true;
     Log INFO "Closing camera interface"; CameraClose;
     Log INFO "sending tweet with image";
     MediaUpload "/home/pi/tweetpic.jpg";
     Log DEBUG "uploading twitter media: %s";
     UpdateStatus "Chicken fact 0: Chickens dream. source: the coop" (Some [1005]);
     Log INFO "Updated Twitter status: %s"] /\
  reads (world (snd (_motion_sensor (healthy 30000000 1) state60))) = 0%nat /\
  (forall (env : Env) (st : State),
     reads (world (snd (_motion_sensor env st))) = reads (world st) /\
     timestamp (self (snd (_motion_sensor env st))) = timestamp (self st)).
Proof.
  split; [vm_compute; reflexivity|].
  split; [vm_compute; reflexivity|].
  split; [vm_compute; reflexivity|].
  split; [vm_compute; reflexivity|].
  apply motion_sensor_ignores_limiter.
Qed.

(** ** The camera *)

(** C4 does not hold of the code.  The fourth camera call of a capture, the
    [capture] itself, raises a hardware error: [_image_capture] raises it
    with the camera left open and no close call made, and so does the motion
    event that asked for the image. *)
Theorem image_capture_error_leaves_camera_open :
  let env := failing_at 0 1 3 HardwareError in
  (let r := _image_capture env state60 in
   fst r = Raise HardwareError /\
   camera (self (snd r)) = CamOpen /\
   trace (world (snd r)) =
     [Log INFO "Initializing camera"; NewPiCamera;
      SetResolution 1024 768; SetFramerate 25; Sleep 2;
      Log INFO "Capturing image"; Capture "/home/pi/tweetpic.jpg" true;
      Log ERROR "Unable to capture image."] /\
   CameraClose ∉ trace (world (snd r))) /\
  (let r := _motion_sensor env state60 in
   fst r = Raise HardwareError /\
   camera (self (snd r)) = CamOpen /\
   CameraClose ∉ trace (world (snd r))).
Proof.
  cbv zeta. repeat split; try (vm_compute; reflexivity).
  - apply (bool_decide_unpack _). vm_compute. exact I.
  - apply (bool_decide_unpack _). vm_compute. exact I.
Qed.

(** ** The livestream *)

(** While every wait returns, the loop goes on: after [fuel] rounds it has
    made [fuel] waits and is still running. *)
Lemma wait_recording_loop_spins (env : Env) (fuel : nat) :
  forall st : State,
    camera (self st) <> CamUnset ->
    (forall j, (j < fuel)%nat -> fate env (calls (world st) + j)%nat = None) ->
    wait_recording_loop env fuel st =
      (Spin,
       {| self := self st;
          world := {| reads := reads (world st);
                      calls := (calls (world st) + fuel)%nat;
                      draws := draws (world st);
                      trace := trace (world st) ++
                               replicate fuel (WaitRecording (livestream_duration (self st))) |};
          stream_pipe := stream_pipe st |}).
Proof.
  induction fuel as [|fuel IH]; intros st Hcam Hfate.
  - destruct st as [s [] p]. simpl. unfold spin. simpl.
    rewrite Nat.add_0_r, app_nil_r. reflexivity.
  - cbn [wait_recording_loop].
    unfold bind at 1, get_self at 1. unfold bind at 1.
    assert (camera_call env (WaitRecording (livestream_duration (self st))) st =
            (Ret tt,
             {| self := self st;
                world := {| reads := reads (world st);
                            calls := S (calls (world st));
                            draws := draws (world st);
                            trace := trace (world st) ++
                                     [WaitRecording (livestream_duration (self st))] |};
                stream_pipe := stream_pipe st |})) as ->.
    { unfold camera_call, bind, get_self, lift, collab_, collab. simpl.
      pose proof (Hfate 0%nat ltac:(lia)) as H0. rewrite Nat.add_0_r in H0.
      destruct (camera (self st)); [done|..]; simpl; rewrite H0; reflexivity. }
    rewrite IH; simpl.
    + rewrite <- app_assoc. simpl. do 4 f_equal. lia.
    + done.
    + intros j Hj. rewrite <- (Hfate (S j)) by lia. f_equal. lia.
Qed.

(** What [_send_livestream] does while every collaborator call returns. *)
Lemma send_livestream_spins (env : Env) (fuel : nat) (st : State) :
  camera (self st) <> CamUnset ->
  (forall j, (j < fuel + 2)%nat -> fate env (calls (world st) + j)%nat = None) ->
  _send_livestream env fuel st =
    (Spin,
     {| self := set_running_livestream true (self st);
        world := {| reads := reads (world st);
                    calls := (calls (world st) + (fuel + 2))%nat;
                    draws := draws (world st);
                    trace := trace (world st) ++
                             [Popen (stream_cmd (self st)); StartRecording "h264" 2000000] ++
                             replicate fuel (WaitRecording (livestream_duration (self st))) |};
        stream_pipe := Bound PipeOpen |}).
Proof.
  intros Hcam Hfate.
  pose proof (Hfate 0%nat ltac:(lia)) as H0. rewrite Nat.add_0_r in H0.
  pose proof (Hfate 1%nat ltac:(lia)) as H1. rewrite Nat.add_1_r in H1.
  unfold _send_livestream.
  unfold bind at 1, set_stream_pipe at 1. unfold try_finally, try_except_interrupt.
  unfold bind at 1, modify_self at 1.
  unfold bind at 1, get_self at 1.
  unfold bind at 1, lift at 1, collab_ at 1, collab at 1. cbn -[wait_recording_loop bind].
  rewrite H0.
  unfold bind at 1, set_stream_pipe at 1. cbn -[wait_recording_loop bind].
  unfold bind at 1, camera_call at 1. unfold bind at 1, get_self at 1.
  cbn -[wait_recording_loop bind].
  destruct (camera (self st)) eqn:Hc; [done|..];
    unfold lift at 1, collab_ at 1, collab at 1; cbn -[wait_recording_loop];
    rewrite H1; rewrite wait_recording_loop_spins; cbn;
    try (rewrite Hc; done);
    try (intros j Hj; rewrite <- (Hfate (S (S j))) by lia; f_equal; lia);
    rewrite <- !app_assoc; cbn; do 4 f_equal; lia.
Qed.

(** C5, as the code has it: the livestream routine has no timer of its own.
    The configured duration is the timeout of each [wait_recording] call of
    a [while True] loop; as long as the collaborator calls return normally,
    the routine is still in that loop after any number of waits, with the
    livestream flag set, the camera not closed and no stop or close call
    made. *)
Theorem livestream_runs_until_interrupted (env : Env) (fuel : nat) (st : State) :
  camera (self st) <> CamUnset ->
  (forall j, (j < fuel + 2)%nat -> fate env (calls (world st) + j)%nat = None) ->
  let r := _send_livestream env fuel st in
  fst r = Spin /\
  running_livestream (self (snd r)) = true /\
  camera (self (snd r)) = camera (self st) /\
  trace (world (snd r)) =
    trace (world st) ++
    [Popen (stream_cmd (self st)); StartRecording "h264" 2000000] ++
    replicate fuel (WaitRecording (livestream_duration (self st))).
Proof.
  intros Hcam Hfate r. subst r.
  rewrite (send_livestream_spins env fuel st Hcam Hfate). done.
Qed.

(** The theorem after three waits of 600 s. *)
Lemma livestream_runs_until_interrupted_witness :
  fst (_send_livestream (healthy 0 1) 3 state_open) = Spin /\
  running_livestream (self (snd (_send_livestream (healthy 0 1) 3 state_open))) = true /\
  camera (self (snd (_send_livestream (healthy 0 1) 3 state_open))) = CamOpen.
Proof.
  destruct (livestream_runs_until_interrupted (healthy 0 1) 3 state_open)
    as (Hr & Hflag & Hcam & _).
  - vm_compute. discriminate.
  - intros j _. reflexivity.
  - split; [exact Hr|]. split; [exact Hflag|]. rewrite Hcam. reflexivity.
Defined.

(** C5 as the specification words it fails: with healthy collaborators no
    number of elapsed waits ends the session. *)
Lemma livestream_never_stops_by_itself :
  ~ exists fuel : nat, fst (_send_livestream (healthy 0 1) fuel state_open) <> Spin.
Proof.
  intros [fuel Hstop]. apply Hstop.
  rewrite send_livestream_spins; [reflexivity|vm_compute; discriminate|].
  intros j _. reflexivity.
Qed.

(** C10 does not hold of the code.  (1) On the object that [__init__]
    builds, whose [camera] attribute does not exist yet, with every
    collaborator healthy: [start_recording] raises [AttributeError], the
    cleanup's [_close_camera] raises it again, and the routine ends with
    the flag still set and the pipe's stdin never closed.  (2) On an object
    with an open camera, when [Popen] raises: the cleanup closes the camera,
    then fails on the unbound [stream_pipe], and the flag stays set. *)
Theorem livestream_cleanup_can_leave_flag_set :
  (forall fuel : nat,
     let r := _run_livestream (healthy 0 1) fuel coop in
     fst r = Raise AttributeError /\
     running_livestream (self (snd r)) = true /\
     stream_pipe (snd r) = Bound PipeOpen /\
     StdinClose ∉ trace (world (snd r))) /\
  (forall fuel : nat,
     let r := _send_livestream (failing_at 0 1 0 OSError) fuel state_open in
     fst r = Raise UnboundLocalError /\
     running_livestream (self (snd r)) = true /\
     camera (self (snd r)) = CamClosed /\
     stream_pipe (snd r) = Unbound).
Proof.
  split; intros fuel; cbv zeta; repeat split; try reflexivity.
  apply (bool_decide_unpack _). vm_compute. exact I.
Qed.

(** * Further properties of the methods *)

(** ** Stepping through a method *)

Section Post.

Context {S : Type}.

Lemma post_ret {A} (a : A) (s : S) Q : Q (Ret a) s -> post (ret a) s Q.
Proof. done. Qed.

Lemma post_raise {A} (e : Exn) (s : S) (Q : Res A -> S -> Prop) :
  Q (Raise e) s -> post (raise e) s Q.
Proof. done. Qed.

Lemma post_spin {A} (s : S) (Q : Res A -> S -> Prop) :
  Q Spin s -> post spin s Q.
Proof. done. Qed.

Lemma post_bind {A B} (m : M S A) (k : A -> M S B) (s : S) Q :
  post m s (fun r s' =>
              match r with
              | Ret a => post (k a) s' Q
              | Raise e => Q (Raise e) s'
              | Spin => Q Spin s'
              end) ->
  post (bind m k) s Q.
Proof. unfold post, bind. destruct (m s) as [[a|e|] s']; done. Qed.

Lemma post_try_except {A} (body : M S A) (handler : Exn -> M S A) (s : S) Q :
  post body s (fun r s' =>
                 match r with
                 | Raise e =>
                     if is_Exception e then post (handler e) s' Q
                     else Q (Raise e) s'
                 | _ => Q r s'
                 end) ->
  post (try_except body handler) s Q.
Proof.
  unfold post, try_except. destruct (body s) as [[a|e|] s']; simpl; try done.
  destruct (is_Exception e); done.
Qed.

Lemma post_try_except_interrupt (body handler : M S unit) (s : S) Q :
  post body s (fun r s' =>
                 match r with
                 | Raise e =>
                     if is_Exception e then Q (Raise e) s'
                     else post handler s' Q
                 | _ => Q r s'
                 end) ->
  post (try_except_interrupt body handler) s Q.
Proof.
  unfold post, try_except_interrupt.
  destruct (body s) as [[a|e|] s']; simpl; try done. destruct e; done.
Qed.

Lemma post_try_finally {A} (body : M S A) (cleanup : M S unit) (s : S) Q :
  post body s (fun r s' =>
                 match r with
                 | Spin => Q Spin s'
                 | _ => post cleanup s' (fun c s'' =>
                          match c with
                          | Ret _ => Q r s''
                          | Raise e => Q (Raise e) s''
                          | Spin => Q Spin s''
                          end)
                 end) ->
  post (try_finally body cleanup) s Q.
Proof.
  unfold post, try_finally.
  destruct (body s) as [[a|e|] s']; simpl; try done;
    destruct (cleanup s') as [[[]|e'|] s'']; done.
Qed.

Lemma run_of_post {A} (m : M S A) (s s0 : S) (r0 : Res A) :
  post m s (fun r s' => r = r0 /\ s' = s0) -> m s = (r0, s0).
Proof. unfold post. destruct (m s) as [r s']. simpl. by intros [-> ->]. Qed.

Lemma post_of_run {A} (m : M S A) (s s0 : S) (r0 : Res A) Q :
  m s = (r0, s0) -> Q r0 s0 -> post m s Q.
Proof. unfold post. by intros ->. Qed.

End Post.

Section PostState.

Context (env : Env).

Lemma post_get_self (st : State) Q : Q (Ret (self st)) st -> post get_self st Q.
Proof. done. Qed.

Lemma post_get_stream_pipe (st : State) Q :
  Q (Ret (stream_pipe st)) st -> post get_stream_pipe st Q.
Proof. done. Qed.

Lemma post_set_stream_pipe (p : Local Pipe) (st : State) Q :
  Q (Ret tt) {| self := self st; world := world st; stream_pipe := p |} ->
  post (set_stream_pipe p) st Q.
Proof. done. Qed.

Lemma post_modify_self (f : Self -> Self) (st : State) Q :
  Q (Ret tt) {| self := f (self st); world := world st;
                stream_pipe := stream_pipe st |} ->
  post (modify_self f) st Q.
Proof. done. Qed.

Lemma post_emit (ev : Event) (st : State) Q :
  Q (Ret tt)
    {| self := self st;
       world := {| reads := reads (world st); calls := calls (world st);
                   draws := draws (world st); trace := trace (world st) ++ [ev] |};
       stream_pipe := stream_pipe st |} ->
  post (lift (emit ev)) st Q.
Proof. done. Qed.

Lemma post_collab {A} (ev : Event) (answer : nat -> A) (st : State) Q :
  (let st' :=
     {| self := self st;
        world := {| reads := reads (world st); calls := S (calls (world st));
                    draws := draws (world st); trace := trace (world st) ++ [ev] |};
        stream_pipe := stream_pipe st |} in
   match fate env (calls (world st)) with
   | Some e => Q (Raise e) st'
   | None => Q (Ret (answer (calls (world st)))) st'
   end) ->
  post (lift (collab env ev answer)) st Q.
Proof.
  unfold post, lift, collab. simpl.
  destruct (fate env (calls (world st))); done.
Qed.

Lemma post_camera_call (ev : Event) (st : State) Q :
  (let st' :=
     {| self := self st;
        world := {| reads := reads (world st); calls := S (calls (world st));
                    draws := draws (world st); trace := trace (world st) ++ [ev] |};
        stream_pipe := stream_pipe st |} in
   match camera (self st) with
   | CamUnset => Q (Raise AttributeError) st
   | _ =>
       match fate env (calls (world st)) with
       | Some e => Q (Raise e) st'
       | None => Q (Ret tt) st'
       end
   end) ->
  post (camera_call env ev) st Q.
Proof.
  unfold post, camera_call, bind, get_self, lift, collab_, collab, raise. simpl.
  destruct (camera (self st)); try done;
    destruct (fate env (calls (world st))); done.
Qed.

Lemma post_randrange (n : nat) (st : State) Q :
  match n with
  | O => Q (Raise ValueError)
           {| self := self st; world := world st; stream_pipe := stream_pipe st |}
  | S _ =>
      Q (Ret (rand env (draws (world st)) `mod` n)%nat)
        {| self := self st;
           world := {| reads := reads (world st); calls := calls (world st);
                       draws := S (draws (world st)); trace := trace (world st) |};
           stream_pipe := stream_pipe st |}
  end ->
  post (lift (randrange env n)) st Q.
Proof. unfold post, lift, randrange. destruct n; simpl; intros H; exact H. Qed.

End PostState.

(** The postcondition of the run at hand gets a name, so that the rules,
    which mention it once per outcome, do not copy it. *)
Ltac name_post :=
  lazymatch goal with
  | |- post _ _ ?Q =>
      tryif is_var Q then idtac else (let q := fresh "Q" in set (q := Q))
  end.

(** One step through a method: the rule of the construct at hand. *)
Ltac post_step :=
  lazymatch goal with
  | |- post (bind _ _) _ _ => name_post; apply post_bind
  | |- post (try_except _ _) _ _ => name_post; apply post_try_except
  | |- post (try_except_interrupt _ _) _ _ =>
      name_post; apply post_try_except_interrupt
  | |- post (try_finally _ _) _ _ => name_post; apply post_try_finally
  | |- post (ret _) _ _ => apply post_ret
  | |- post (raise _) _ _ => apply post_raise
  | |- post spin _ _ => apply post_spin
  | |- post get_self _ _ => apply post_get_self
  | |- post get_stream_pipe _ _ => apply post_get_stream_pipe
  | |- post (set_stream_pipe _) _ _ => apply post_set_stream_pipe
  | |- post (modify_self _) _ _ => apply post_modify_self
  | |- post (lift (logging _ _)) _ _ => apply post_emit
  | |- post (lift (sleep _)) _ _ => apply post_emit
  | |- post (lift (collab_ _ _)) _ _ => name_post; apply post_collab
  | |- post (lift (collab _ _ _)) _ _ => name_post; apply post_collab
  | |- post (lift (randrange _ _)) _ _ => name_post; apply post_randrange
  | |- post (camera_call _ _) _ _ => name_post; apply post_camera_call
  | |- post (match (if ?c then _ else _) with _ => _ end) _ _ => destruct c
  | |- post (match ?x with _ => _ end) _ _ => destruct x eqn:?
  | |- match ?x with _ => _ end => destruct x eqn:?
  | |- ?Q _ _ => is_var Q; unfold Q
  end;
  cbv beta iota zeta;
  cbn [self world stream_pipe reads calls draws trace fst snd
       running_livestream camera camera_text facts facts_count twitter_image
       timestamp tweet_interval livestream_duration youtube_key youtube_feed_url
       set_camera set_facts set_timestamp set_running_livestream is_Exception].

(** A path that the hypotheses rule out. *)
Ltac absurd_path :=
  match goal with
  | H : true = false |- _ => discriminate H
  | H : false = true |- _ => discriminate H
  | H : Some _ = None |- _ => discriminate H
  | H : None = Some _ |- _ => discriminate H
  | H : S _ = O |- _ => discriminate H
  | H : O = S _ |- _ => discriminate H
  | H : ?a <> ?b, H' : ?a = ?b |- _ => destruct (H H')
  | H : ?a <> ?a |- _ => destruct (H eq_refl)
  | H : Some _ = None \/ Some _ = None \/ Some _ = None |- _ =>
      by destruct H as [|[|]]
  | H : _ = _ |- _ => discriminate H
  end.

(** What a lookup found is what the hypotheses say it finds. *)
Ltac same_found :=
  match goal with
  | H : Some ?a = Some ?b |- _ => injection H as ->
  end.

Ltac post_run := repeat first [absurd_path | same_found | post_step].

(** The events added to a trace, read off an equation between appends. *)
Ltac trace_grown := rewrite <- ?app_assoc; eexists; split; [reflexivity|]; simpl.

(** ** Capturing an image *)

Lemma image_capture_outcome (env : Env) (st : State) :
  post (_image_capture env) st (fun r st' =>
    match r with
    | Ret b => b = true /\ camera (self st') = CamClosed
    | Raise e =>
        match fate env (calls (world st)) with
        | Some e' => e = e' /\ camera (self st') = camera (self st)
        | None => camera (self st') = CamOpen
        end
    | Spin => False
    end).
Proof.
  unfold _image_capture, _initialize_camera, _close_camera. post_run; done.
Qed.

(** [_image_capture] closes the camera on its successful path only: when it
    returns, the answer is [True] and the camera is closed; when the
    [PiCamera()] constructor raises, that error comes out and [self.camera]
    is what it was; when it raises later (a setting, the capture or the
    close itself), the camera is left open. *)
Theorem image_capture_closes_only_on_success (env : Env) (st : State) :
  let r := _image_capture env st in
  fst r <> Spin /\
  (forall b, fst r = Ret b -> b = true /\ camera (self (snd r)) = CamClosed) /\
  (forall e e', fst r = Raise e -> fate env (calls (world st)) = Some e' ->
     e = e' /\ camera (self (snd r)) = camera (self st)) /\
  (forall e, fst r = Raise e -> fate env (calls (world st)) = None ->
     camera (self (snd r)) = CamOpen).
Proof.
  intros r. subst r. pose proof (image_capture_outcome env st) as H.
  unfold post in H.
  destruct (_image_capture env st) as [[b|e|] st']; simpl in *.
  - split; [done|]. split; [|done]. intros b' [= <-]. done.
  - split; [done|]. split; [done|]. split.
    + intros e1 e' [= <-] He. rewrite He in H. done.
    + intros e1 [= <-] He. rewrite He in H. done.
  - done.
Qed.

(** ** What a motion event publishes *)

Lemma upload_among (p : string) (l : list Event) :
  MediaUpload p ∈ l -> existsb is_upload l = true.
Proof.
  induction l as [|ev l IH]; [by intros ?%elem_of_nil|].
  intros [<-|Hin]%elem_of_cons; simpl; [done|].
  rewrite (IH Hin). by destruct (is_upload ev).
Qed.

(** Membership in a list that is written out. *)
Ltac listed := apply (bool_decide_unpack _); vm_compute; exact I.

Lemma motion_sensor_outcome (env : Env) (st : State) :
  running_livestream (self st) = false ->
  post (_motion_sensor env) st (fun r st' =>
    exists new, trace (world st') = trace (world st) ++ new /\
      forallb carries_one_media new = true /\
      (length (filter is_publish new) <= 1)%nat /\
      (Log INFO "sending tweet without image" ∉ new) /\
      (forall p, MediaUpload p ∈ new ->
         camera (self st') = CamClosed /\ CameraClose ∈ new)).
Proof.
  intros Hlive.
  unfold _motion_sensor, _send_tweet, _get_tweet_fact, getitem,
    _image_capture, _initialize_camera, _close_camera.
  post_run.
  all: trace_grown.
  all: split; [reflexivity|]; split; [cbv; lia|]; split; [listed|].
  all: intros p Hin;
    first [ split; [reflexivity|listed]
          | apply upload_among in Hin; vm_compute in Hin; discriminate Hin ].
Qed.

(** A motion event outside a livestream never publishes a fact without an
    image: every status update it makes carries exactly one media id, it
    makes at most one, and the branch that would tweet without an image is
    never taken.  When it uploads the image, the camera has been closed
    before. *)
Theorem motion_publishes_fact_only_with_image (env : Env) (st : State) :
  running_livestream (self st) = false ->
  let r := _motion_sensor env st in
  exists new, trace (world (snd r)) = trace (world st) ++ new /\
    forallb carries_one_media new = true /\
    (length (filter is_publish new) <= 1)%nat /\
    (Log INFO "sending tweet without image" ∉ new) /\
    (forall p, MediaUpload p ∈ new ->
       camera (self (snd r)) = CamClosed /\ CameraClose ∈ new).
Proof. intros Hlive. exact (motion_sensor_outcome env st Hlive). Qed.

(** The theorem on [state60], every collaborator healthy. *)
Lemma motion_publishes_fact_only_with_image_witness :
  exists new,
    trace (world (snd (_motion_sensor (healthy 0 1) state60))) = trace (world state60) ++ new /\
    forallb carries_one_media new = true /\
    (length (filter is_publish new) <= 1)%nat /\
    (Log INFO "sending tweet without image" ∉ new) /\
    (forall p, MediaUpload p ∈ new ->
       camera (self (snd (_motion_sensor (healthy 0 1) state60))) = CamClosed /\
       CameraClose ∈ new).
Proof. exact (motion_publishes_fact_only_with_image (healthy 0 1) state60 eq_refl). Defined.


Lemma send_tweet_outcome (env : Env) (st : State) :
  post (_send_tweet env) st (fun r st' =>
    match r with
    | Ret id =>
        id = new_id env (pred (calls (world st'))) /\
        exists new, trace (world st') = trace (world st) ++ new /\
          length (filter is_publish new) = 1%nat /\
          last new = Some (Log INFO "Updated Twitter status: %s")
    | Raise _ => True
    | Spin => False
    end).
Proof.
  unfold _send_tweet, _get_tweet_fact, getitem,
    _image_capture, _initialize_camera, _close_camera.
  post_run; try done.
  all: split; [reflexivity|]; trace_grown; split; reflexivity.
Qed.

(** [_send_tweet], with or without a livestream, returns only when its
    status update went through: it has then made exactly one status update,
    the identifier it returns is the one Twitter gave to that update (not
    the media id), and logging it was the last thing done.  It never stays
    in a loop. *)
Theorem send_tweet_returns_published_id (env : Env) (st : State) :
  let r := _send_tweet env st in
  fst r <> Spin /\
  forall id, fst r = Ret id ->
    id = new_id env (pred (calls (world (snd r)))) /\
    exists new, trace (world (snd r)) = trace (world st) ++ new /\
      length (filter is_publish new) = 1%nat /\
      last new = Some (Log INFO "Updated Twitter status: %s").
Proof.
  intros r. subst r. pose proof (send_tweet_outcome env st) as H.
  unfold post in H. destruct (_send_tweet env st) as [[id|e|] st']; simpl in *.
  - split; [done|]. by intros id' [= <-].
  - split; [done|]. by intros id' [=].
  - done.
Qed.

(** ** Picking a fact *)

(** [_get_tweet_fact] on a collection whose count is not zero, when the
    entry drawn has the three keys and is a fact or a quote: it returns the
    message made of the index drawn, the content and the source, in the
    wording of its kind, having done nothing but draw once. *)
Theorem get_tweet_fact_message
    (env : Env) (st : State) (f : Fact) (ty content source : string) :
  let i := (rand env (draws (world st)) `mod` facts_count (self st))%nat in
  facts_count (self st) <> 0%nat ->
  facts (self st) !! i = Some f ->
  f !! "type" = Some ty ->
  f !! "content" = Some content ->
  f !! "source" = Some source ->
  let r := _get_tweet_fact env st in
  (ty = "fact" ->
   fst r = Ret ("Chicken fact " +:+ pretty i +:+ ": " +:+ content +:+
                " source: " +:+ source)) /\
  (ty = "quote" ->
   fst r = Ret ("Chicken Quote " +:+ pretty i +:+ ": " +:+ content +:+
                " --" +:+ source)) /\
  self (snd r) = self st /\
  trace (world (snd r)) = trace (world st) /\
  calls (world (snd r)) = calls (world st) /\
  draws (world (snd r)) = S (draws (world st)).
Proof.
  intros i Hcount Hf Hty Hcontent Hsource r. subst i r.
  change (post (_get_tweet_fact env) st (fun r st' =>
    (ty = "fact" ->
     r = Ret ("Chicken fact " +:+
              pretty (rand env (draws (world st)) `mod` facts_count (self st))%nat
              +:+ ": " +:+ content +:+ " source: " +:+ source)) /\
    (ty = "quote" ->
     r = Ret ("Chicken Quote " +:+
              pretty (rand env (draws (world st)) `mod` facts_count (self st))%nat
              +:+ ": " +:+ content +:+ " --" +:+ source)) /\
    self st' = self st /\
    trace (world st') = trace (world st) /\
    calls (world st') = calls (world st) /\
    draws (world st') = S (draws (world st)))).
  unfold _get_tweet_fact, getitem. post_run; simplify_eq;
    repeat split; try done; intros; simplify_eq.
Qed.

(** The theorem on the one fact of [self60]. *)
Lemma get_tweet_fact_message_witness :
  fst (_get_tweet_fact (healthy 0 1) state60) =
    Ret "Chicken fact 0: Chickens dream. source: the coop".
Proof.
  assert (facts_count (self state60) <> 0%nat) as Hcount by (vm_compute; discriminate).
  destruct (get_tweet_fact_message (healthy 0 1) state60 fact0
              "fact" "Chickens dream." "the coop" Hcount eq_refl eq_refl eq_refl eq_refl)
    as (Hfact & _).
  rewrite (Hfact eq_refl). reflexivity.
Defined.

(** ** Motion events that find no usable fact *)

Lemma motion_sensor_no_facts_run (env : Env) (st : State) :
  running_livestream (self st) = false ->
  facts_count (self st) = 0%nat ->
  _motion_sensor env st = (Raise ValueError, motion_refused st).
Proof.
  intros Hlive Hcount. apply run_of_post.
  unfold _motion_sensor, _send_tweet, _get_tweet_fact.
  post_run. unfold motion_refused. rewrite <- !app_assoc. done.
Qed.

(** A motion event outside a livestream, when the stored count is zero:
    [randrange(0)] raises [ValueError]; the event ends with that error
    logged, and no camera or Twitter call has been made, no number drawn
    and the object left as it was. *)
Theorem motion_with_no_facts_raises (env : Env) (st : State) :
  running_livestream (self st) = false ->
  facts_count (self st) = 0%nat ->
  let r := _motion_sensor env st in
  fst r = Raise ValueError /\
  self (snd r) = self st /\
  calls (world (snd r)) = calls (world st) /\
  draws (world (snd r)) = draws (world st) /\
  trace (world (snd r)) =
    trace (world st) ++ [Log INFO "Motion sensor event triggered";
                         Log ERROR "Unable to send Twitter update"].
Proof.
  intros Hlive Hcount r. subst r.
  rewrite (motion_sensor_no_facts_run env st Hlive Hcount). done.
Qed.

(** The theorem on the empty collection. *)
Lemma motion_with_no_facts_raises_witness :
  fst (_motion_sensor (healthy 0 1) state_empty) = Raise ValueError /\
  calls (world (snd (_motion_sensor (healthy 0 1) state_empty))) = 0%nat.
Proof.
  destruct (motion_with_no_facts_raises (healthy 0 1) state_empty eq_refl eq_refl)
    as (Hr & _ & Hcalls & _).
  split; [exact Hr|exact Hcalls].
Defined.

(** A motion event outside a livestream, when the entry drawn lacks one of
    the keys [type], [content], [source]: it raises [KeyError], logged, and
    no camera or Twitter call has been made. *)
Theorem motion_with_incomplete_fact_raises (env : Env) (st : State) (f : Fact) :
  let i := (rand env (draws (world st)) `mod` facts_count (self st))%nat in
  running_livestream (self st) = false ->
  facts_count (self st) <> 0%nat ->
  facts (self st) !! i = Some f ->
  f !! "type" = None \/ f !! "content" = None \/ f !! "source" = None ->
  let r := _motion_sensor env st in
  fst r = Raise KeyError /\
  self (snd r) = self st /\
  calls (world (snd r)) = calls (world st) /\
  trace (world (snd r)) =
    trace (world st) ++ [Log INFO "Motion sensor event triggered";
                         Log ERROR "Unable to send Twitter update"].
Proof.
  intros i Hlive Hcount Hf Hkey r. subst i r.
  change (post (_motion_sensor env) st (fun r st' =>
    r = Raise KeyError /\
    self st' = self st /\
    calls (world st') = calls (world st) /\
    trace (world st') =
      trace (world st) ++ [Log INFO "Motion sensor event triggered";
                           Log ERROR "Unable to send Twitter update"])).
  unfold _motion_sensor, _send_tweet, _get_tweet_fact, getitem.
  post_run; rewrite <- !app_assoc; done.
Qed.

(** The theorem on an entry without content. *)
Lemma motion_with_incomplete_fact_raises_witness :
  fst (_motion_sensor (healthy 0 1) state_bare) = Raise KeyError /\
  calls (world (snd (_motion_sensor (healthy 0 1) state_bare))) = 0%nat.
Proof.
  assert (facts_count (self state_bare) <> 0%nat) as Hcount by (vm_compute; discriminate).
  destruct (motion_with_incomplete_fact_raises (healthy 0 1) state_bare fact_bare
              eq_refl Hcount eq_refl (or_intror (or_introl eq_refl)))
    as (Hr & _ & Hcalls & _).
  split; [exact Hr|exact Hcalls].
Defined.

(** A motion event outside a livestream, when the entry drawn has the three
    keys but a type that is neither [fact] nor [quote]: no message is ever
    assigned, the [return] raises [UnboundLocalError], logged, and no camera
    or Twitter call has been made. *)
Theorem motion_with_unknown_fact_type_raises
    (env : Env) (st : State) (f : Fact) (ty content source : string) :
  let i := (rand env (draws (world st)) `mod` facts_count (self st))%nat in
  running_livestream (self st) = false ->
  facts_count (self st) <> 0%nat ->
  facts (self st) !! i = Some f ->
  f !! "type" = Some ty ->
  f !! "content" = Some content ->
  f !! "source" = Some source ->
  ty <> "fact" ->
  ty <> "quote" ->
  let r := _motion_sensor env st in
  fst r = Raise UnboundLocalError /\
  self (snd r) = self st /\
  calls (world (snd r)) = calls (world st) /\
  trace (world (snd r)) =
    trace (world st) ++ [Log INFO "Motion sensor event triggered";
                         Log ERROR "Unable to send Twitter update"].
Proof.
  intros i Hlive Hcount Hf Hty Hcontent Hsource Hfact Hquote r. subst i r.
  change (post (_motion_sensor env) st (fun r st' =>
    r = Raise UnboundLocalError /\
    self st' = self st /\
    calls (world st') = calls (world st) /\
    trace (world st') =
      trace (world st) ++ [Log INFO "Motion sensor event triggered";
                           Log ERROR "Unable to send Twitter update"])).
  unfold _motion_sensor, _send_tweet, _get_tweet_fact, getitem.
  post_run; rewrite <- !app_assoc; done.
Qed.

(** The theorem on an entry of type [joke]. *)
Lemma motion_with_unknown_fact_type_raises_witness :
  fst (_motion_sensor (healthy 0 1) state_joke) = Raise UnboundLocalError /\
  calls (world (snd (_motion_sensor (healthy 0 1) state_joke))) = 0%nat.
Proof.
  assert (facts_count (self state_joke) <> 0%nat) as Hcount by (vm_compute; discriminate).
  assert ("joke" <> "fact") as Hfact by discriminate.
  assert ("joke" <> "quote") as Hquote by discriminate.
  destruct (motion_with_unknown_fact_type_raises (healthy 0 1) state_joke fact_joke
              "joke" "Why did the chicken cross the road?" "anonymous"
              eq_refl Hcount eq_refl eq_refl eq_refl eq_refl Hfact Hquote)
    as (Hr & _ & Hcalls & _).
  split; [exact Hr|exact Hcalls].
Defined.


(** ** Building the object *)

(** What [__init__] does, by the fate of its two collaborator calls and of
    the parse. *)
Lemma init_run (env : Env) (config : Config) (w : World) :
  let k := calls w in
  let asked :=
    ((trace w ++ [Log DEBUG "Processing __init__.py"])
     ++ [Log INFO "Loading facts from %s"]) ++ [HttpGet (cfg_facts_url config)] in
  let checked :=
    ((asked ++ [Log INFO "Loaded %s facts"])
     ++ [Log INFO "Setting motion sensor pin number"]) ++ [VerifyCredentials] in
  let at_ (r c : nat) (t : list Event) :=
    {| reads := r; calls := c; draws := draws w; trace := t |} in
  __init__ env config w =
    match fate env k with
    | Some e => (Raise e, at_ (reads w) (S k) asked)
    | None =>
        match yaml env (web env k) with
        | inl e => (Raise e, at_ (reads w) (S k) asked)
        | inr fs =>
            match fate env (S k) with
            | Some e =>
                (Raise e,
                 at_ (reads w) (S (S k))
                   (if is_Exception e
                    then checked ++ [Log ERROR "Error verifying Twitter API"]
                    else checked))
            | None =>
                (Ret (built config fs (now_seq env (reads w))),
                 at_ (S (reads w)) (S (S k))
                   ((checked ++ [Log INFO "Twitter API connected and verified"])
                    ++ [Log INFO "Seetting up media information for Twitter"]))
            end
        end
    end.
Proof.
  unfold __init__. unfold bind at 1. unfold logging at 1, emit at 1.
  unfold bind at 1. rewrite load_facts_file_run. cbv zeta. cbn [calls trace reads draws].
  destruct (fate env (calls w)); [reflexivity|].
  destruct (yaml env (web env (calls w))) as [|fs]; [reflexivity|].
  unfold _create_twitter_api, _set_timestamp, try_except, bind, logging, emit,
    collab_, collab, datetime_now, ret, raise.
  cbn [calls trace reads draws].
  destruct (fate env (S (calls w))) as [e|]; [destruct e|]; reflexivity.
Qed.

(** [__init__] asks the facts server before it turns to Twitter: when the
    GET raises, or the parse of what it returned does, [__init__] raises
    that error having made that one call only; the Twitter credentials have
    not been checked and the clock has not been read. *)
Theorem init_stops_at_facts_failure
    (env : Env) (config : Config) (w : World) (e : Exn) :
  fate env (calls w) = Some e \/
  (fate env (calls w) = None /\ yaml env (web env (calls w)) = inl e) ->
  let r := __init__ env config w in
  fst r = Raise e /\
  calls (snd r) = S (calls w) /\
  reads (snd r) = reads w /\
  trace (snd r) =
    trace w ++ [Log DEBUG "Processing __init__.py";
                Log INFO "Loading facts from %s";
                HttpGet (cfg_facts_url config)].
Proof.
  intros H r. subst r. rewrite init_run. cbv zeta.
  destruct H as [-> | [-> ->]]; cbn; rewrite <- !app_assoc; done.
Qed.

(** The theorem when the facts file does not parse. *)
Lemma init_stops_at_facts_failure_witness :
  let env := {| now_seq := now_seq (healthy 0 1); fate := fate (healthy 0 1);
                rand := rand (healthy 0 1); web := web (healthy 0 1);
                yaml := fun _ => inl ParseError; new_id := new_id (healthy 0 1) |} in
  fst (__init__ env config0 world0) = Raise ParseError /\
  calls (snd (__init__ env config0 world0)) = 1%nat.
Proof.
  intros env.
  destruct (init_stops_at_facts_failure env config0 world0 ParseError)
    as (Hr & Hcalls & _).
  - right. split; reflexivity.
  - split; [exact Hr|exact Hcalls].
Defined.


(** ** What the methods leave alone *)

Section FieldFrame.

Context (env : Env) {X : Type} (f : Self -> X) (x : X).

(** The part [f] of the object does not depend on the camera attribute, nor
    on the livestream flag. *)
Hypothesis f_set_camera : forall c s, f (set_camera c s) = f s.
Hypothesis f_set_running_livestream : forall b s, f (set_running_livestream b s) = f s.

Local Abbreviation has_part := (fun st : State => f (self st) = x).

#[local] Hint Extern 4 (keeps _ (modify_self (set_camera _))) =>
  (intros ? ?; simpl; rewrite f_set_camera; done) : keeps.
#[local] Hint Extern 4 (keeps _ (modify_self (set_running_livestream _))) =>
  (intros ? ?; simpl; rewrite f_set_running_livestream; done) : keeps.

Lemma camera_call_keeps_part ev : keeps has_part (camera_call env ev).
Proof. unfold camera_call. solve_keeps. Qed.

Lemma initialize_camera_keeps_part : keeps has_part (_initialize_camera env).
Proof.
  pose proof camera_call_keeps_part.
  unfold _initialize_camera. solve_keeps.
Qed.

Lemma close_camera_keeps_part : keeps has_part (_close_camera env).
Proof.
  pose proof camera_call_keeps_part.
  unfold _close_camera. solve_keeps.
Qed.

Lemma image_capture_keeps_part : keeps has_part (_image_capture env).
Proof.
  pose proof camera_call_keeps_part.
  pose proof initialize_camera_keeps_part.
  pose proof close_camera_keeps_part.
  unfold _image_capture. solve_keeps.
Qed.

Lemma get_tweet_fact_keeps_part : keeps has_part (_get_tweet_fact env).
Proof. unfold _get_tweet_fact, getitem. solve_keeps. Qed.

Lemma send_tweet_keeps_part : keeps has_part (_send_tweet env).
Proof.
  pose proof image_capture_keeps_part.
  pose proof get_tweet_fact_keeps_part.
  unfold _send_tweet. solve_keeps.
Qed.

Lemma motion_sensor_keeps_part : keeps has_part (_motion_sensor env).
Proof.
  pose proof send_tweet_keeps_part.
  unfold _motion_sensor. solve_keeps.
Qed.

Lemma wait_recording_loop_keeps_part fuel :
  keeps has_part (wait_recording_loop env fuel).
Proof.
  pose proof camera_call_keeps_part.
  induction fuel; simpl; solve_keeps.
Qed.

Lemma send_livestream_keeps_part fuel : keeps has_part (_send_livestream env fuel).
Proof.
  pose proof camera_call_keeps_part.
  pose proof close_camera_keeps_part.
  pose proof (wait_recording_loop_keeps_part fuel).
  unfold _send_livestream. solve_keeps.
Qed.

Lemma run_livestream_keeps_part fuel : keeps has_part (_run_livestream env fuel).
Proof.
  pose proof (send_livestream_keeps_part fuel).
  unfold _run_livestream. solve_keeps.
Qed.

End FieldFrame.

(** A motion event, whatever happens to it, changes nothing of the object
    but the camera attribute: the facts, the livestream flag, the interval,
    the timestamp and the rest are what they were. *)
Theorem motion_changes_only_camera (env : Env) (st : State) :
  let st' := snd (_motion_sensor env st) in
  self st' = set_camera (camera (self st')) (self st).
Proof.
  intros st'. subst st'.
  pose proof (motion_sensor_keeps_part env (set_camera CamUnset)
                (set_camera CamUnset (self st)) (fun _ _ => eq_refl) st eq_refl) as H.
  cbv beta in H. revert H.
  generalize (self (snd (_motion_sensor env st))). intros s' H.
  destruct s', (self st). unfold set_camera in *. simpl in *.
  inversion H. reflexivity.
Qed.

(** The livestream routine, however it ends or goes on, changes nothing of
    the object but the livestream flag and the camera attribute. *)
Theorem livestream_changes_only_flag_and_camera (env : Env) (fuel : nat) (st : State) :
  let st' := snd (_run_livestream env fuel st) in
  self st' =
    set_running_livestream (running_livestream (self st'))
      (set_camera (camera (self st')) (self st)).
Proof.
  intros st'. subst st'.
  pose proof (run_livestream_keeps_part env
                (fun s => set_running_livestream false (set_camera CamUnset s))
                (set_running_livestream false (set_camera CamUnset (self st)))
                (fun _ _ => eq_refl) (fun _ _ => eq_refl) fuel st eq_refl) as H.
  cbv beta in H. revert H.
  generalize (self (snd (_run_livestream env fuel st))). intros s' H.
  destruct s', (self st).
  unfold set_running_livestream, set_camera in *. simpl in *.
  inversion H. reflexivity.
Qed.

(** ** The rate limiter on the object as built *)

Lemma check_timestamp_keeps_interval (env : Env) (v : PyVal) :
  keeps (fun st => tweet_interval (self st) = v) (_check_timestamp env).
Proof. unfold _check_timestamp, _set_timestamp. solve_keeps. Qed.

Lemma reachable_interval_is_str (env : Env) (st : State) :
  reachable env st -> exists v, tweet_interval (self st) = PyStr v.
Proof.
  induction 1 as [config w s w' Hinit | st st' _ [v IH] Hstep].
  - rewrite init_run in Hinit. cbv zeta in Hinit.
    repeat case_match; simplify_eq. simpl. eauto.
  - exists v. destruct Hstep.
    + by apply check_timestamp_keeps_interval.
    + by apply (motion_sensor_keeps_part env tweet_interval).
    + rewrite run_retrieve_facts_run. cbv zeta. by repeat case_match.
    + by apply (run_livestream_keeps_part env tweet_interval).
Qed.

Lemma check_timestamp_str_run (env : Env) (st : State) (v : string) :
  tweet_interval (self st) = PyStr v ->
  _check_timestamp env st =
    (Raise TypeError,
     {| self := self st;
        world := {| reads := S (reads (world st)); calls := calls (world st);
                    draws := draws (world st); trace := trace (world st) |};
        stream_pipe := stream_pipe st |}).
Proof.
  intros Hv. unfold _check_timestamp, bind, lift, get_self, datetime_now. simpl.
  rewrite Hv. reflexivity.
Qed.

(** On the object [__init__] builds, and in every state it reaches through
    its methods, the admission check cannot answer: the interval is the
    string read from the configuration, the comparison of line 156 raises
    [TypeError], and the check leaves the timestamp, and all of the object,
    as it was, having read the clock once. *)
Theorem check_timestamp_raises_on_built_object (env : Env) (st : State) :
  reachable env st ->
  let r := _check_timestamp env st in
  fst r = Raise TypeError /\
  self (snd r) = self st /\
  reads (world (snd r)) = S (reads (world st)) /\
  trace (world (snd r)) = trace (world st).
Proof.
  intros Hreach r. subst r.
  destruct (reachable_interval_is_str env st Hreach) as [v Hv].
  rewrite (check_timestamp_str_run env st v Hv). done.
Qed.

(** The theorem on the object built from [config0], after a motion event. *)
Lemma check_timestamp_raises_on_built_object_witness :
  reachable (healthy 0 1) (snd (_motion_sensor (healthy 0 1) coop)) /\
  fst (_check_timestamp (healthy 0 1) (snd (_motion_sensor (healthy 0 1) coop)))
    = Raise TypeError.
Proof.
  assert (reachable (healthy 0 1) (snd (_motion_sensor (healthy 0 1) coop))) as Hreach.
  { eapply reach_step; [|apply step_motion_sensor].
    apply (reach_init (healthy 0 1) config0 world0). vm_compute. reflexivity. }
  split; [exact Hreach|].
  exact (proj1 (check_timestamp_raises_on_built_object (healthy 0 1) _ Hreach)).
Defined.

(** ** How a livestream ends *)

(** The loop is left by the first wait that raises. *)
Lemma wait_recording_loop_raises (env : Env) (e : Exn) (k : nat) :
  forall (fuel : nat) (st : State),
    camera (self st) <> CamUnset ->
    (k < fuel)%nat ->
    (forall j, (j < k)%nat -> fate env (calls (world st) + j)%nat = None) ->
    fate env (calls (world st) + k)%nat = Some e ->
    wait_recording_loop env fuel st =
      (Raise e,
       {| self := self st;
          world := {| reads := reads (world st);
                      calls := (calls (world st) + S k)%nat;
                      draws := draws (world st);
                      trace := trace (world st) ++
                               replicate (S k) (WaitRecording (livestream_duration (self st))) |};
          stream_pipe := stream_pipe st |}).
Proof.
  induction k as [|k IH]; intros fuel st Hcam Hfuel Hok He;
    (destruct fuel as [|fuel]; [lia|]); cbn [wait_recording_loop].
  - rewrite Nat.add_0_r in He. apply run_of_post. post_run.
    all: rewrite Nat.add_1_r; done.
  - pose proof (Hok 0%nat ltac:(lia)) as H0. rewrite Nat.add_0_r in H0.
    apply run_of_post.
    post_run;
      (eapply post_of_run;
       [ apply (IH fuel); cbn [self world calls camera];
         [ congruence | lia
         | intros j Hj; rewrite <- (Hok (S j)) by lia; f_equal; lia
         | rewrite <- He; f_equal; lia ]
       | cbn [self world calls reads draws trace stream_pipe livestream_duration];
         rewrite <- app_assoc; split; [done|];
         replace (S (calls (world st)) + S k)%nat
           with (calls (world st) + S (S k))%nat by lia;
         reflexivity ]).
Qed.

(** A livestream started on an object that has a camera handle, when every
    collaborator call succeeds but the wait number [k + 1], which raises
    [e]: what [_send_livestream] returns and the state it leaves. *)
Lemma send_livestream_exit_run (env : Env) (fuel k : nat) (e : Exn) (st : State) :
  camera (self st) <> CamUnset ->
  (k < fuel)%nat ->
  (forall j, fate env (calls (world st) + j)%nat =
             if decide (j = k + 2)%nat then Some e else None) ->
  _send_livestream env fuel st =
    (if is_Exception e then Raise e else Ret tt,
     {| self := set_running_livestream false (set_camera CamClosed (self st));
        world :=
          {| reads := reads (world st);
             calls := (calls (world st) + (k + if is_Exception e then 5 else 6))%nat;
             draws := draws (world st);
             trace :=
               trace (world st) ++
               [Popen (stream_cmd (self st)); StartRecording "h264" 2000000] ++
               replicate (S k) (WaitRecording (livestream_duration (self st))) ++
               (if is_Exception e then [] else [StopRecording]) ++
               [Log INFO "Closing down livestream";
                Log INFO "Closing camera interface"; CameraClose; StdinClose] |};
        stream_pipe := Bound PipeClosed |}).
Proof.
  intros Hcam Hfuel Hfate.
  assert (Hat : forall x, (calls (world st) <= x)%nat ->
            fate env x = if decide (x = calls (world st) + (k + 2))%nat
                         then Some e else None).
  { intros x Hx. replace x with (calls (world st) + (x - calls (world st)))%nat at 1 by lia.
    rewrite Hfate. repeat case_decide; (done || lia). }
  apply run_of_post. unfold _send_livestream, _close_camera.
  repeat first
    [ absurd_path
    | match goal with
      | H : fate env ?x = Some _ |- _ =>
          exfalso; rewrite (Hat x) in H by lia; case_decide; [lia|discriminate H]
      | |- post (wait_recording_loop env fuel) _ _ =>
          eapply post_of_run;
          [ apply (wait_recording_loop_raises env e k);
            cbn [self world calls camera set_running_livestream];
            [ congruence | exact Hfuel
            | intros j Hj; rewrite Hat by lia; case_decide; [lia|done]
            | rewrite Hat by lia; case_decide; [done|lia] ]
          | cbn [self world calls reads draws trace stream_pipe livestream_duration
                 set_running_livestream] ]
      end
    | post_step ].
  all: split; [done|].
  all: rewrite <- ?app_assoc; cbn [app].
  all: f_equal; [f_equal; lia].
Qed.

(** A [KeyboardInterrupt] during a wait ends the livestream in good order:
    when it arrives in wait number [k + 1] of a stream whose other
    collaborator calls all succeed, the routine stops the recording, closes
    the camera and the pipe to ffmpeg, resets the flag and returns
    normally. *)
Theorem livestream_interrupt_stops_cleanly
    (env : Env) (fuel k : nat) (st : State) :
  camera (self st) <> CamUnset ->
  (k < fuel)%nat ->
  (forall j, fate env (calls (world st) + j)%nat =
             if decide (j = k + 2)%nat then Some KeyboardInterrupt else None) ->
  let r := _send_livestream env fuel st in
  fst r = Ret tt /\
  running_livestream (self (snd r)) = false /\
  camera (self (snd r)) = CamClosed /\
  stream_pipe (snd r) = Bound PipeClosed /\
  trace (world (snd r)) =
    trace (world st) ++
    [Popen (stream_cmd (self st)); StartRecording "h264" 2000000] ++
    replicate (S k) (WaitRecording (livestream_duration (self st))) ++
    [StopRecording; Log INFO "Closing down livestream";
     Log INFO "Closing camera interface"; CameraClose; StdinClose].
Proof.
  intros Hcam Hfuel Hfate r. subst r.
  rewrite (send_livestream_exit_run env fuel k KeyboardInterrupt st Hcam Hfuel Hfate).
  done.
Qed.

(** The theorem when the interrupt comes in the third wait. *)
Lemma livestream_interrupt_stops_cleanly_witness :
  fst (_send_livestream (interrupted_at 4) 10 state_open) = Ret tt /\
  running_livestream (self (snd (_send_livestream (interrupted_at 4) 10 state_open))) = false /\
  camera (self (snd (_send_livestream (interrupted_at 4) 10 state_open))) = CamClosed.
Proof.
  destruct (livestream_interrupt_stops_cleanly (interrupted_at 4) 10 2 state_open)
    as (Hr & Hflag & Hcam & _).
  - vm_compute. discriminate.
  - lia.
  - intros j. cbn. repeat case_decide; (done || lia).
  - split; [exact Hr|]. split; [exact Hflag|exact Hcam].
Defined.

(** An error raised by a wait ends the livestream with the cleanup done:
    when wait number [k + 1] raises an exception (not an interrupt) and the
    other collaborator calls all succeed, the routine closes the camera and
    the pipe to ffmpeg, resets the flag and lets the error out; it does not
    call [stop_recording]. *)
Theorem livestream_error_cleans_up
    (env : Env) (fuel k : nat) (e : Exn) (st : State) :
  camera (self st) <> CamUnset ->
  (k < fuel)%nat ->
  is_Exception e = true ->
  (forall j, fate env (calls (world st) + j)%nat =
             if decide (j = k + 2)%nat then Some e else None) ->
  let r := _send_livestream env fuel st in
  fst r = Raise e /\
  running_livestream (self (snd r)) = false /\
  camera (self (snd r)) = CamClosed /\
  stream_pipe (snd r) = Bound PipeClosed /\
  trace (world (snd r)) =
    trace (world st) ++
    [Popen (stream_cmd (self st)); StartRecording "h264" 2000000] ++
    replicate (S k) (WaitRecording (livestream_duration (self st))) ++
    [Log INFO "Closing down livestream";
     Log INFO "Closing camera interface"; CameraClose; StdinClose].
Proof.
  intros Hcam Hfuel He Hfate r. subst r.
  rewrite (send_livestream_exit_run env fuel k e st Hcam Hfuel Hfate).
  rewrite He. done.
Qed.

(** The theorem when the first wait fails on the hardware. *)
Lemma livestream_error_cleans_up_witness :
  fst (_send_livestream (failing_at 0 1 2 HardwareError) 10 state_open) =
    Raise HardwareError /\
  running_livestream
    (self (snd (_send_livestream (failing_at 0 1 2 HardwareError) 10 state_open))) = false.
Proof.
  destruct (livestream_error_cleans_up (failing_at 0 1 2 HardwareError) 10 0
              HardwareError state_open)
    as (Hr & Hflag & _).
  - vm_compute. discriminate.
  - lia.
  - reflexivity.
  - intros j. cbn. repeat case_decide; (done || lia).
  - split; [exact Hr|exact Hflag].
Defined.

(** ** A livestream started without a camera *)

Lemma run_livestream_unset_outcome (env : Env) (fuel : nat) (st : State) :
  camera (self st) = CamUnset ->
  post (_run_livestream env fuel) st (fun r st' =>
    r = Raise AttributeError /\
    self st' = set_running_livestream true (self st) /\
    exists new, trace (world st') = trace (world st) ++ new /\
      forallb not_camera_event new = true /\
      (StdinClose ∉ new) /\
      (Log ERROR "Unable to close camera" ∈ new)).
Proof.
  intros Hcam. unfold _run_livestream, _send_livestream, _close_camera.
  post_run.
  all: split; [done|]; split; [done|]; trace_grown.
  all: split; [reflexivity|]; split; listed.
Qed.

(** [_send_livestream] never opens the camera itself.  Run on an object
    whose [camera] attribute does not exist yet, as [__init__] leaves it,
    the livestream thread raises [AttributeError] whatever the collaborators
    do: no call reaches the camera driver, the cleanup stops at
    [_close_camera], the pipe to ffmpeg is not closed, and the livestream
    flag, set at the start, stays set; nothing else of the object
    changes. *)
Theorem livestream_without_camera_leaves_flag_set
    (env : Env) (fuel : nat) (st : State) :
  camera (self st) = CamUnset ->
  let r := _run_livestream env fuel st in
  fst r = Raise AttributeError /\
  self (snd r) = set_running_livestream true (self st) /\
  exists new, trace (world (snd r)) = trace (world st) ++ new /\
    forallb not_camera_event new = true /\
    (StdinClose ∉ new) /\
    (Log ERROR "Unable to close camera" ∈ new).
Proof. intros Hcam. exact (run_livestream_unset_outcome env fuel st Hcam). Qed.

(** The theorem on the object built from [config0], when ffmpeg cannot even
    be started. *)
Lemma livestream_without_camera_leaves_flag_set_witness :
  fst (_run_livestream (failing_at 0 1 2 OSError) 5 coop) = Raise AttributeError /\
  running_livestream (self (snd (_run_livestream (failing_at 0 1 2 OSError) 5 coop))) = true.
Proof.
  destruct (livestream_without_camera_leaves_flag_set (failing_at 0 1 2 OSError) 5 coop eq_refl)
    as (Hr & Hself & _).
  split; [exact Hr|]. rewrite Hself. reflexivity.
Defined.

(** After a livestream that could not start for want of a camera, the flag
    being stuck, the next motion event takes the announcement path: it
    captures no image and tweets that a livestream is running. *)
Theorem motion_after_failed_livestream_announces
    (env : Env) (fuel : nat) (st : State) :
  camera (self st) = CamUnset ->
  let st1 := snd (_run_livestream env fuel st) in
  let r := _motion_sensor env st1 in
  exists tail,
    trace (world (snd r)) =
      trace (world st1) ++
      [Log INFO "Motion sensor event triggered";
       UpdateStatus (livestream_message (self st)) None] ++ tail /\
    Forall (fun ev => is_log ev = true) tail /\
    camera (self (snd r)) = CamUnset.
Proof.
  intros Hcam st1 r. subst r.
  pose proof (run_livestream_unset_outcome env fuel st Hcam) as (_ & Hself & _).
  fold st1 in Hself.
  assert (running_livestream (self st1) = true) as Hlive by (by rewrite Hself).
  rewrite (motion_sensor_livestream_run env st1 Hlive). cbv zeta.
  replace (livestream_message (self st1)) with (livestream_message (self st))
    by (by rewrite Hself).
  destruct (fate env (calls (world st1))) as [e|]; [destruct (is_Exception e)|];
    cbn [snd world self trace]; rewrite Hself, <- ?app_assoc; cbn [app].
  - exists [Log ERROR "Unable to send Twitter update"]. repeat split; [|done].
    repeat constructor.
  - exists []. repeat split; [|done]. constructor.
  - exists [Log INFO "Updated Twitter status: %s"]. repeat split; [|done].
    repeat constructor.
Qed.

(** The theorem on the object built from [config0]. *)
Lemma motion_after_failed_livestream_announces_witness :
  exists tail,
    trace (world (snd (_motion_sensor (healthy 0 1)
                         (snd (_run_livestream (healthy 0 1) 5 coop))))) =
      trace (world (snd (_run_livestream (healthy 0 1) 5 coop))) ++
      [Log INFO "Motion sensor event triggered";
       UpdateStatus (livestream_message (self coop)) None] ++ tail /\
    Forall (fun ev => is_log ev = true) tail /\
    camera (self (snd (_motion_sensor (healthy 0 1)
                         (snd (_run_livestream (healthy 0 1) 5 coop))))) = CamUnset.
Proof. exact (motion_after_failed_livestream_announces (healthy 0 1) 5 coop eq_refl). Defined.

(** ** A refresh that finds nothing *)

(** A refresh replaces the collection by whatever the parse returned, an
    empty list included: when the facts file parses to no entry, the refresh
    succeeds, the collection and its count are empty, and every motion event
    outside a livestream then fails with [ValueError] before any camera or
    Twitter call. *)
Theorem empty_refresh_silences_motion (env : Env) (st : State) :
  running_livestream (self st) = false ->
  fate env (calls (world st)) = None ->
  yaml env (web env (calls (world st))) = inr [] ->
  let r1 := _run_retrieve_facts env st in
  let r2 := _motion_sensor env (snd r1) in
  fst r1 = Ret tt /\
  facts (self (snd r1)) = [] /\
  facts_count (self (snd r1)) = 0%nat /\
  fst r2 = Raise ValueError /\
  calls (world (snd r2)) = calls (world (snd r1)).
Proof.
  intros Hlive Hfate Hyaml r1 r2. subst r2 r1.
  rewrite run_retrieve_facts_run. cbv zeta. rewrite Hfate, Hyaml.
  cbn [fst snd]. rewrite motion_sensor_no_facts_run by done. done.
Qed.

(** The theorem on [state60]. *)
Lemma empty_refresh_silences_motion_witness :
  facts (self (snd (_run_retrieve_facts healthy_no_facts state60))) = [] /\
  fst (_motion_sensor healthy_no_facts
         (snd (_run_retrieve_facts healthy_no_facts state60))) = Raise ValueError.
Proof.
  destruct (empty_refresh_silences_motion healthy_no_facts state60 eq_refl eq_refl eq_refl)
    as (_ & Hfacts & _ & Hr & _).
  split; [exact Hfacts|exact Hr].
Defined.
